(** * Weather-based outfit recommendation service (src/app.py)

    A shallow embedding of the Flask backend: the rule-based recommender
    [get_outfit_recommendation], its helper [generate_style_tips], the
    image adapter [search_unsplash_image], the per-slot image collection
    [get_outfit_images] and the request handler [outfit_recommendation].

    Python values that come from JSON are modelled by the type [json];
    Python exceptions by an error monad; the two outbound HTTP services
    by oracles of a [World], and every call the handler makes is written
    to a chronological call log. *)

From Stdlib Require Import String Ascii List ZArith QArith Bool Lia.
Import ListNotations.

Set Warnings "-register-all".

Open Scope string_scope.
Open Scope list_scope.

(** ** Exceptions and the error monad *)

(** The classes of Python exceptions the program can meet.  The text of
    an exception ([str(e)]) is not modelled. *)
Inductive exn : Type :=
  | KeyError
  | IndexError
  | TypeError
  | ValueError
  | RequestException
  | OtherException.

(** [except requests.RequestException] (app.py:273) catches this class only. *)
Definition is_request_exception (e : exn) : bool :=
  match e with
  | RequestException => true
  | _ => false
  end.

Inductive result (A : Type) : Type :=
  | Ok (a : A)
  | Raise (e : exn).

Arguments Ok {A} a.
Arguments Raise {A} e.

Module ResultMonad.

Definition ret {A} (a : A) : result A := Ok a.

Definition bind {A B} (m : result A) (k : A -> result B) : result B :=
  match m with
  | Ok a => k a
  | Raise e => Raise e
  end.

End ResultMonad.

Declare Scope result_scope.
Delimit Scope result_scope with result.

Notation "'let?' x ':=' m 'in' k" :=
  (ResultMonad.bind m (fun x => k))
    (at level 10, x name, m at level 100, k at level 200) : result_scope.

(** ** JSON values as Python sees them *)

(** A finite JSON number (Python [int] or finite [float]) is the exact
    rational it denotes; order comparisons on such numbers are exact.
    The non-finite floats (NaN, Infinity), which are not JSON, are left
    out.  A JSON object is the list of its items in insertion order. *)
Inductive json : Type :=
  | JNull
  | JBool (b : bool)
  | JNum (q : Q)
  | JStr (s : string)
  | JArr (items : list json)
  | JObj (fields : list (string * json)).

Definition dict : Type := list (string * json).

(** [k in d] and [d.get(k)] on a dict: the first binding of [k]. *)
Fixpoint dict_lookup {V : Type} (k : string) (d : list (string * V)) : option V :=
  match d with
  | [] => None
  | (k', v) :: d' => if String.eqb k k' then Some v else dict_lookup k d'
  end.

(** [d.get(k, default)] *)
Definition dict_get (k : string) (default : json) (d : dict) : json :=
  match dict_lookup k d with
  | Some v => v
  | None => default
  end.

(** [d[k] = v]: replaces the value of an existing key in place, appends a
    new key at the end. *)
Fixpoint dict_set {V : Type} (k : string) (v : V) (d : list (string * V))
  : list (string * V) :=
  match d with
  | [] => [(k, v)]
  | (k', v') :: d' =>
      if String.eqb k k' then (k', v) :: d' else (k', v') :: dict_set k v d'
  end.

Definition Qlt_bool (x y : Q) : bool :=
  (Qnum x * QDen y <? Qnum y * QDen x)%Z.

Definition Qis_zero (x : Q) : bool := (Qnum x =? 0)%Z.

(** Python truthiness ([if v:], [not v]). *)
Definition truthy (v : json) : bool :=
  match v with
  | JNull => false
  | JBool b => b
  | JNum q => negb (Qis_zero q)
  | JStr s => negb (String.eqb s "")
  | JArr l => match l with [] => false | _ => true end
  | JObj d => match d with [] => false | _ => true end
  end.

(** [bool] is a subclass of [int]: [True] counts as 1 and [False] as 0 in
    arithmetic and comparisons. *)
Definition as_number (v : json) : option Q :=
  match v with
  | JNum q => Some q
  | JBool true => Some 1%Q
  | JBool false => Some 0%Q
  | _ => None
  end.

(** [v < n] for a numeric literal [n]; other operand types raise TypeError. *)
Definition py_lt (v : json) (n : Q) : result bool :=
  match as_number v with
  | Some q => Ok (Qlt_bool q n)
  | None => Raise TypeError
  end.

(** [v > n] for a numeric literal [n]. *)
Definition py_gt (v : json) (n : Q) : result bool :=
  match as_number v with
  | Some q => Ok (Qlt_bool n q)
  | None => Raise TypeError
  end.

(** [v == s] for a string literal [s]: false for every non-string. *)
Definition py_eq_str (v : json) (s : string) : bool :=
  match v with
  | JStr x => String.eqb x s
  | _ => false
  end.

(** [v in [s1, s2, ...]] for a list of string literals. *)
Definition py_in_strs (v : json) (l : list string) : bool :=
  existsb (py_eq_str v) l.

(** [v[k]] for a string key. *)
Definition getitem (v : json) (k : string) : result json :=
  match v with
  | JObj d =>
      match dict_lookup k d with
      | Some x => Ok x
      | None => Raise KeyError
      end
  | _ => Raise TypeError
  end.

(** [v[0]] *)
Definition getitem0 (v : json) : result json :=
  match v with
  | JArr (x :: _) => Ok x
  | JArr [] => Raise IndexError
  | JStr (String c _) => Ok (JStr (String c ""))
  | JStr "" => Raise IndexError
  | JObj _ => Raise KeyError
  | _ => Raise TypeError
  end.

(** [round(x)] with one argument: the nearest integer, ties to the even
    one. *)
Definition round_half_even (q : Q) : Z :=
  let n := Qnum q in
  let d := Zpos (Qden q) in
  let f := (n / d)%Z in
  let r := (n mod d)%Z in
  match (2 * r ?= d)%Z with
  | Lt => f
  | Gt => (f + 1)%Z
  | Eq => if Z.even f then f else (f + 1)%Z
  end.

Definition py_round (v : json) : result Z :=
  match as_number v with
  | Some q => Ok (round_half_even q)
  | None => Raise TypeError
  end.

(** ** Strings *)

(** [s.replace(old, new)] for a non-empty [old]: every non-overlapping
    occurrence, leftmost first.  [skip] counts the characters of a matched
    occurrence still to be dropped. *)
Fixpoint replace_from (old new : string) (skip : nat) (s : string) : string :=
  match s with
  | EmptyString => EmptyString
  | String c s' =>
      match skip with
      | S k => replace_from old new k s'
      | O =>
          if String.prefix old s
          then new ++ replace_from old new (String.length old - 1) s'
          else String c (replace_from old new 0 s')
      end
  end.

Definition replace (old new s : string) : string :=
  replace_from old new 0 s.

(** [sep.join(l)] *)
Fixpoint join (sep : string) (l : list string) : string :=
  match l with
  | [] => ""
  | [x] => x
  | x :: l' => x ++ sep ++ join sep l'
  end.

(** [needle in s] for strings: substring test. *)
Fixpoint substring_in (needle s : string) : bool :=
  String.prefix needle s
  || match s with
     | EmptyString => false
     | String _ s' => substring_in needle s'
     end.

(** ** The recommender (app.py:26-135) *)

Record Outfit : Type := mkOutfit {
  top : string;
  bottom : string;
  outerwear : string;
  footwear : string;
  accessories : list string
}.

(** Item assignment [outfit['...'] = v] on the outfit dict. *)
Definition with_top (v : string) (o : Outfit) : Outfit :=
  mkOutfit v (bottom o) (outerwear o) (footwear o) (accessories o).
Definition with_bottom (v : string) (o : Outfit) : Outfit :=
  mkOutfit (top o) v (outerwear o) (footwear o) (accessories o).
Definition with_outerwear (v : string) (o : Outfit) : Outfit :=
  mkOutfit (top o) (bottom o) v (footwear o) (accessories o).
Definition with_footwear (v : string) (o : Outfit) : Outfit :=
  mkOutfit (top o) (bottom o) (outerwear o) v (accessories o).
Definition with_accessories (v : list string) (o : Outfit) : Outfit :=
  mkOutfit (top o) (bottom o) (outerwear o) (footwear o) v.

(** [outfit['accessories'].append(x)] and [.extend(l)] *)
Definition append_accessory (x : string) (o : Outfit) : Outfit :=
  with_accessories (accessories o ++ [x]) o.
Definition extend_accessories (l : list string) (o : Outfit) : Outfit :=
  with_accessories (accessories o ++ l) o.

Record Recommendation : Type := mkRecommendation {
  outfit : Outfit;
  color_palette : list string;
  style_tips : string
}.

Open Scope result_scope.

(** app.py:119-135 *)
Definition generate_style_tips (temp condition mood : json) : result string :=
  let tips := [] in
  let? c := py_lt temp 65 in
  let tips :=
    if c then tips ++ ["Layer your clothing for temperature flexibility"]
    else tips in
  let tips :=
    if py_in_strs condition ["Rain"; "Drizzle"]
    then tips ++ ["Choose water-resistant fabrics"]
    else tips in
  let? c := py_gt temp 75 in
  let tips :=
    if c then tips ++ ["Opt for breathable, moisture-wicking materials"]
    else tips in
  let tips :=
    if py_eq_str mood "professional"
    then tips ++ ["Keep accessories minimal and polished"]
    else tips in
  Ok (match tips with
      | [] => "Dress comfortably and confidently!"
      | _ => join " | " tips
      end).

(** Temperature-based recommendations, app.py:45-75. *)
Definition temperature_based (temp : json) (outfit : Outfit) : result Outfit :=
  let? cold := py_lt temp 50 in
  if cold then
    let outfit := with_top "Thermal long-sleeve shirt or sweater" outfit in
    let outfit := with_bottom "Jeans or warm pants" outfit in
    let outfit := with_outerwear "Heavy coat or parka" outfit in
    let outfit := with_footwear "Boots" outfit in
    Ok (with_accessories ["Scarf"; "Gloves"; "Beanie"] outfit)
  else
  let? cool := py_lt temp 65 in
  if cool then
    let outfit := with_top "Long-sleeve shirt or light sweater" outfit in
    let outfit := with_bottom "Chinos or jeans" outfit in
    let outfit := with_outerwear "Light jacket or cardigan" outfit in
    let outfit := with_footwear "Sneakers or loafers" outfit in
    Ok (with_accessories ["Light scarf"] outfit)
  else
  let? mild := py_lt temp 75 in
  if mild then
    let outfit := with_top "T-shirt or button-down shirt" outfit in
    let outfit := with_bottom "Chinos or casual pants" outfit in
    let outfit := with_outerwear "Optional light jacket" outfit in
    let outfit := with_footwear "Sneakers or casual shoes" outfit in
    Ok (with_accessories ["Sunglasses"] outfit)
  else
  let? warm := py_lt temp 85 in
  if warm then
    let outfit := with_top "Breathable t-shirt or polo" outfit in
    let outfit := with_bottom "Shorts or light pants" outfit in
    let outfit := with_outerwear "None needed" outfit in
    let outfit := with_footwear "Sandals or canvas shoes" outfit in
    Ok (with_accessories ["Sunglasses"; "Hat"] outfit)
  else
    let outfit := with_top "Light, breathable tank or t-shirt" outfit in
    let outfit := with_bottom "Shorts" outfit in
    let outfit := with_outerwear "None" outfit in
    let outfit := with_footwear "Sandals" outfit in
    Ok (with_accessories ["Sunglasses"; "Sun hat"; "Sunscreen"] outfit).

(** Weather condition adjustments, app.py:77-85. *)
Definition condition_adjustments (condition : json) (outfit : Outfit) : Outfit :=
  if py_in_strs condition ["Rain"; "Drizzle"; "Thunderstorm"] then
    let outfit := with_outerwear "Waterproof jacket or raincoat" outfit in
    let outfit := append_accessory "Umbrella" outfit in
    with_footwear "Waterproof boots or shoes" outfit
  else if py_eq_str condition "Snow" then
    let outfit := with_outerwear "Insulated winter coat" outfit in
    let outfit := extend_accessories ["Warm hat"; "Gloves"; "Scarf"] outfit in
    with_footwear "Winter boots" outfit
  else outfit.

(** Mood-based adjustments, app.py:87-97. *)
Definition mood_adjustments (mood : json) (outfit : Outfit) : Outfit :=
  if py_eq_str mood "professional" then
    let outfit :=
      with_top (replace "T-shirt" "Button-down shirt"
                  (replace "t-shirt" "dress shirt" (top outfit))) outfit in
    let outfit := with_bottom "Dress pants or skirt" outfit in
    with_footwear "Dress shoes or heels" outfit
  else if py_eq_str mood "adventurous" then
    let outfit := with_footwear "Hiking boots or athletic shoes" outfit in
    append_accessory "Backpack" outfit
  else if py_eq_str mood "cozy" then
    let outfit := with_top "Soft sweater or hoodie" outfit in
    append_accessory "Comfort scarf" outfit
  else outfit.

(** app.py:100-105 *)
Definition color_palettes : list (string * list string) :=
  [ ("neutral", ["Navy"; "Beige"; "White"; "Gray"]);
    ("warm", ["Burgundy"; "Mustard"; "Rust"; "Cream"]);
    ("cool", ["Navy"; "Teal"; "Silver"; "Ice Blue"]);
    ("vibrant", ["Red"; "Emerald"; "Royal Blue"; "Yellow"]) ].

(** [table[k]] on a dict with string keys. *)
Definition subscript {V : Type} (table : list (string * V)) (k : string)
  : result V :=
  match dict_lookup k table with
  | Some v => Ok v
  | None => Raise KeyError
  end.

(** [table.get(key, default)] for a key that is any Python value: lists
    and dicts are unhashable; a key that is not a string equals no key of
    a table whose keys are strings. *)
Definition table_get {V : Type} (table : list (string * V)) (key : json)
    (default : V) : result V :=
  match key with
  | JArr _ | JObj _ => Raise TypeError
  | JStr s =>
      Ok (match dict_lookup s table with
          | Some v => v
          | None => default
          end)
  | _ => Ok default
  end.

(** The outfit before any rule has run, app.py:37-43. *)
Definition initial_outfit : Outfit := mkOutfit "" "" "" "" [].

(** app.py:26-116 *)
Definition get_outfit_recommendation (weather_data : json) (preferences : dict)
  : result Recommendation :=
  let? main := getitem weather_data "main" in
  let? temp := getitem main "temp" in
  let? weather := getitem weather_data "weather" in
  let? weather0 := getitem0 weather in
  let? condition := getitem weather0 "main" in
  let mood := dict_get "mood" (JStr "casual") preferences in
  let style := dict_get "style_preference" (JStr "casual") preferences in
  let color_pref := dict_get "color_preference" (JStr "neutral") preferences in
  let outfit := initial_outfit in
  let? outfit := temperature_based temp outfit in
  let outfit := condition_adjustments condition outfit in
  let outfit := mood_adjustments mood outfit in
  let? neutral := subscript color_palettes "neutral" in
  let? color_palette := table_get color_palettes color_pref neutral in
  let? style_tips := generate_style_tips temp condition mood in
  Ok (mkRecommendation outfit color_palette style_tips).

(** A weather document with the two fields the recommender reads. *)
Definition weather_of (temp condition : json) : json :=
  JObj [ ("weather", JArr [JObj [("main", condition)]]);
         ("main", JObj [("temp", temp)]) ].

Definition prefs_of (mood style color : json) : dict :=
  [ ("mood", mood); ("style_preference", style); ("color_preference", color) ].

Example ex_chicago :
  get_outfit_recommendation (weather_of (JNum 30) (JStr "Snow"))
    (prefs_of (JStr "casual") (JStr "casual") (JStr "neutral"))
  = Ok (mkRecommendation
          (mkOutfit "Thermal long-sleeve shirt or sweater" "Jeans or warm pants"
             "Insulated winter coat" "Winter boots"
             ["Scarf"; "Gloves"; "Beanie"; "Warm hat"; "Gloves"; "Scarf"])
          ["Navy"; "Beige"; "White"; "Gray"]
          "Layer your clothing for temperature flexibility").
Proof. reflexivity. Qed.

Example ex_professional_mild :
  get_outfit_recommendation (weather_of (JNum 70) (JStr "Clear"))
    (prefs_of (JStr "professional") (JStr "x") (JStr "warm"))
  = Ok (mkRecommendation
          (mkOutfit "Button-down shirt or button-down shirt" "Dress pants or skirt"
             "Optional light jacket" "Dress shoes or heels" ["Sunglasses"])
          ["Burgundy"; "Mustard"; "Rust"; "Cream"]
          "Keep accessories minimal and polished").
Proof. reflexivity. Qed.

Example ex_professional_warm :
  get_outfit_recommendation (weather_of (JNum 80) (JStr "Rain"))
    (prefs_of (JStr "professional") JNull (JNum 3))
  = Ok (mkRecommendation
          (mkOutfit "Breathable dress shirt or polo" "Dress pants or skirt"
             "Waterproof jacket or raincoat" "Dress shoes or heels"
             ["Sunglasses"; "Hat"; "Umbrella"])
          ["Navy"; "Beige"; "White"; "Gray"]
          "Choose water-resistant fabrics | Opt for breathable, moisture-wicking materials | Keep accessories minimal and polished").
Proof. reflexivity. Qed.

(** ** Outbound services, configuration and the call log *)

(** Query parameters of the photo search, app.py:147-152. *)
Record SearchParams : Type := mkSearchParams {
  query : string;
  per_page : Z;
  orientation : string;
  content_filter : string
}.

(** Every call the request handler makes, in the order it makes it. *)
Inductive event : Type :=
  | Call_weather_service (q : json) (appid : option string)  (* app.py:237 *)
  | Call_get_outfit_recommendation                           (* app.py:256 *)
  | Call_get_outfit_images                                   (* app.py:259 *)
  | Call_search_unsplash_image (key : string) (q : string)   (* app.py:191 *)
  | Call_photo_service (params : SearchParams)               (* app.py:157 *)
  | Call_print (e : exn).                                    (* app.py:170 *)

(** What [requests.get] can do: raise, or return a response with a status
    code and a body whose [.json()] yields a value or raises. *)
Inductive http_outcome : Type :=
  | Http_raise (e : exn)
  | Http_response (status_code : Z) (json_ : result json).

(** The two upstream services.  Each answer may depend on everything that
    happened before the call. *)
Record World : Type := mkWorld {
  weather_service : list event -> json -> option string -> http_outcome;
  photo_service : list event -> SearchParams -> string -> http_outcome
}.

(** [os.getenv] yields a string or None, app.py:19-22. *)
Record Config : Type := mkConfig {
  OPENWEATHER_API_KEY : option string;
  UNSPLASH_ACCESS_KEY : option string
}.

(** Computations that may raise and that write to the call log. *)
Definition IO (A : Type) : Type := list event -> result A * list event.

Module IOMonad.

Definition ret {A} (a : A) : IO A := fun log => (Ok a, log).

Definition bind {A B} (m : IO A) (k : A -> IO B) : IO B :=
  fun log =>
    match m log with
    | (Ok a, log') => k a log'
    | (Raise e, log') => (Raise e, log')
    end.

Definition lift {A} (r : result A) : IO A := fun log => (r, log).

Definition emit (ev : event) : IO unit := fun log => (Ok tt, log ++ [ev]).

Definition history : IO (list event) := fun log => (Ok log, log).

(** [try: m except Exception as e: h e] *)
Definition try_except {A} (m : IO A) (h : exn -> IO A) : IO A :=
  fun log =>
    match m log with
    | (Ok a, log') => (Ok a, log')
    | (Raise e, log') => h e log'
    end.

End IOMonad.

Declare Scope io_scope.
Delimit Scope io_scope with io.

Notation "'let!' x ':=' m 'in' k" :=
  (IOMonad.bind m (fun x => k))
    (at level 10, x name, m at level 100, k at level 200) : io_scope.
Notation "'do!' m 'in' k" :=
  (IOMonad.bind m (fun _ => k))
    (at level 10, m at level 100, k at level 200) : io_scope.

(** ** The image adapter and the request handler (app.py:138-280) *)

Record Image : Type := mkImage {
  url : json;
  thumb : json;
  photographer : json;
  photographer_url : json
}.

Record WeatherInfo : Type := mkWeatherInfo {
  temperature : Z;
  condition : json;
  description : json;
  humidity : json;
  wind_speed : Z
}.

Record Response : Type := mkResponse {
  resp_location : json;
  resp_weather : WeatherInfo;
  resp_outfit : Outfit;
  resp_outfit_images : list (string * Image);
  resp_color_palette : list string;
  resp_style_tips : string
}.

(** The JSON body of a reply: [{'error': msg}], the error body of the last
    [except] clause whose text ends in [str(e)], or the combined response. *)
Inductive body : Type :=
  | Error_body (msg : string)
  | Internal_error_body (e : exn)
  | Response_body (r : Response).

Definition reply : Type := (body * Z)%type.

(** [not key] for a value of [os.getenv]. *)
Definition key_unset (k : option string) : bool :=
  match k with
  | None => true
  | Some s => String.eqb s ""
  end.

Section Service.

Variable cfg : Config.
Variable world : World.

Open Scope io_scope.

(** The body of the [try] block of [search_unsplash_image], app.py:147-168. *)
Definition search_unsplash_image_try (q : string) (orient : string)
  : IO (option Image) :=
  let params := mkSearchParams q 1 orient "high" in
  let client_id :=
    match UNSPLASH_ACCESS_KEY cfg with Some k => k | None => "" end in
  let! before := IOMonad.history in
  do! IOMonad.emit (Call_photo_service params) in
  match photo_service world before params client_id with
  | Http_raise e => IOMonad.lift (Raise e)
  | Http_response status_code json_ =>
      if (status_code =? 200)%Z then
        let! data := IOMonad.lift json_ in
        let! results := IOMonad.lift (getitem data "results") in
        if truthy results then
          IOMonad.lift
            (let? r0 := getitem0 results in
             let? urls := getitem r0 "urls" in
             let? regular := getitem urls "regular" in
             let? small := getitem urls "small" in
             let? user := getitem r0 "user" in
             let? name := getitem user "name" in
             let? links := getitem user "links" in
             let? html := getitem links "html" in
             Ok (Some (mkImage regular small name html)))%result
        else IOMonad.ret None
      else IOMonad.ret None
  end.

(** app.py:138-171 *)
Definition search_unsplash_image (q : string) (orient : string)
  : IO (option Image) :=
  if key_unset (UNSPLASH_ACCESS_KEY cfg) then IOMonad.ret None
  else
    IOMonad.try_except (search_unsplash_image_try q orient)
      (fun e => do! IOMonad.emit (Call_print e) in IOMonad.ret None).

(** The dict [search_queries], app.py:181-187, in insertion order. *)
Definition search_queries (outfit : Outfit) : list (string * option string) :=
  [ ("top", Some (top outfit ++ " fashion flatlay")%string);
    ("bottom", Some (bottom outfit ++ " fashion flatlay")%string);
    ("outerwear",
      if negb (String.eqb (outerwear outfit) "")
         && negb (String.eqb (outerwear outfit) "None needed")
      then Some (outerwear outfit ++ " fashion flatlay")%string
      else None);
    ("footwear", Some (footwear outfit ++ " fashion flatlay")%string);
    ("outfit_complete",
      Some "complete outfit flatlay fashion minimal aesthetic") ].

(** The loop of [get_outfit_images], app.py:189-193. *)
Fixpoint collect_images (items : list (string * option string))
    (images : list (string * Image)) : IO (list (string * Image)) :=
  match items with
  | [] => IOMonad.ret images
  | (key, q) :: rest =>
      match q with
      | Some q =>
          if negb (String.eqb q "") then
            do! IOMonad.emit (Call_search_unsplash_image key q) in
            let! image_data := search_unsplash_image q "portrait" in
            match image_data with
            | Some img => collect_images rest (dict_set key img images)
            | None => collect_images rest images
            end
          else collect_images rest images
      | None => collect_images rest images
      end
  end.

(** app.py:174-195 *)
Definition get_outfit_images (outfit : Outfit) : IO (list (string * Image)) :=
  let images := [] in
  collect_images (search_queries outfit) images.

(** ['location' not in data] for a truthy [data]. *)
Definition location_not_in (data : json) : result bool :=
  match data with
  | JObj d =>
      Ok (match dict_lookup "location" d with Some _ => false | None => true end)
  | JArr l => Ok (negb (existsb (fun x => py_eq_str x "location") l))
  | JStr s => Ok (negb (substring_in "location" s))
  | _ => Raise TypeError
  end.

(** [data.get(k, default)]: only a dict has the method. *)
Definition py_get (data : json) (k : string) (default : json) : result json :=
  match data with
  | JObj d => Ok (dict_get k default d)
  | _ => Raise OtherException
  end.

(** The dict [weather_info], app.py:247-253. *)
Definition weather_info_of (weather_data : json) : result WeatherInfo :=
  (let? main := getitem weather_data "main" in
   let? temp := getitem main "temp" in
   let? temperature := py_round temp in
   let? weather := getitem weather_data "weather" in
   let? weather0 := getitem0 weather in
   let? condition := getitem weather0 "main" in
   let? description := getitem weather0 "description" in
   let? humidity := getitem main "humidity" in
   let? wind := getitem weather_data "wind" in
   let? speed := getitem wind "speed" in
   let? wind_speed := py_round speed in
   Ok (mkWeatherInfo temperature condition description humidity wind_speed))%result.

(** The [try] block of [outfit_recommendation], app.py:214-271.
    [request_json] is what [request.get_json()] does: the parsed body
    (None is [JNull]) or an exception of the framework. *)
Definition outfit_recommendation_try (request_json : result json) : IO reply :=
  let! data := IOMonad.lift request_json in
  let! missing :=
    IOMonad.lift
      (if negb (truthy data) then Ok true else location_not_in data) in
  if (missing : bool) then
    IOMonad.ret (Error_body "Location is required", 400%Z)
  else
    let! location := IOMonad.lift (getitem data "location") in
    let! mood := IOMonad.lift (py_get data "mood" (JStr "casual")) in
    let! style := IOMonad.lift (py_get data "style_preference" (JStr "casual")) in
    let! color := IOMonad.lift (py_get data "color_preference" (JStr "neutral")) in
    let preferences : dict :=
      [ ("mood", mood); ("style_preference", style);
        ("color_preference", color) ] in
    let! before := IOMonad.history in
    do! IOMonad.emit (Call_weather_service location (OPENWEATHER_API_KEY cfg)) in
    match weather_service world before location (OPENWEATHER_API_KEY cfg) with
    | Http_raise e => IOMonad.lift (Raise e)
    | Http_response status_code json_ =>
        if negb (status_code =? 200)%Z then
          IOMonad.ret
            (Error_body "Unable to fetch weather data. Please check the location.",
             400%Z)
        else
          let! weather_data := IOMonad.lift json_ in
          let! weather_info := IOMonad.lift (weather_info_of weather_data) in
          do! IOMonad.emit Call_get_outfit_recommendation in
          let! recommendation :=
            IOMonad.lift (get_outfit_recommendation weather_data preferences) in
          do! IOMonad.emit Call_get_outfit_images in
          let! outfit_images := get_outfit_images (outfit recommendation) in
          IOMonad.ret
            (Response_body
               (mkResponse location weather_info (outfit recommendation)
                  outfit_images (color_palette recommendation)
                  (style_tips recommendation)),
             200%Z)
    end.

(** app.py:207-280: the reply and the call log of one request. *)
Definition outfit_recommendation (request_json : result json)
  : reply * list event :=
  match outfit_recommendation_try request_json [] with
  | (Ok r, log) => (r, log)
  | (Raise e, log) =>
      if is_request_exception e
      then ((Error_body "Failed to connect to weather service", 503%Z), log)
      else ((Internal_error_body e, 500%Z), log)
  end.

End Service.

(** * Properties *)

(** ** Comparisons and strings *)

Lemma Qlt_bool_iff (x y : Q) : Qlt_bool x y = true <-> (x < y)%Q.
Proof. unfold Qlt_bool, Qlt. apply Z.ltb_lt. Qed.

Lemma Qlt_bool_false_iff (x y : Q) : Qlt_bool x y = false <-> (y <= x)%Q.
Proof. unfold Qlt_bool, Qle. rewrite Z.ltb_ge. reflexivity. Qed.

Lemma py_eq_str_true (v : json) (s : string) :
  py_eq_str v s = true <-> v = JStr s.
Proof.
  destruct v; simpl; try (split; [discriminate | intros H; discriminate H]).
  rewrite String.eqb_eq. split; [intros -> | intros [= ->]]; reflexivity.
Qed.

Lemma py_eq_str_false (v : json) (s : string) :
  py_eq_str v s = false <-> v <> JStr s.
Proof.
  rewrite <- py_eq_str_true. destruct (py_eq_str v s); split; congruence.
Qed.

(** ** Temperature tiers *)

Inductive tier : Type := Cold | Cool | Mild | Warm | Hot.

(** The outfit each tier fixes, app.py:47-75. *)
Definition tier_outfit (k : tier) : Outfit :=
  match k with
  | Cold => mkOutfit "Thermal long-sleeve shirt or sweater" "Jeans or warm pants"
              "Heavy coat or parka" "Boots" ["Scarf"; "Gloves"; "Beanie"]
  | Cool => mkOutfit "Long-sleeve shirt or light sweater" "Chinos or jeans"
              "Light jacket or cardigan" "Sneakers or loafers" ["Light scarf"]
  | Mild => mkOutfit "T-shirt or button-down shirt" "Chinos or casual pants"
              "Optional light jacket" "Sneakers or casual shoes" ["Sunglasses"]
  | Warm => mkOutfit "Breathable t-shirt or polo" "Shorts or light pants"
              "None needed" "Sandals or canvas shoes" ["Sunglasses"; "Hat"]
  | Hot => mkOutfit "Light, breathable tank or t-shirt" "Shorts"
              "None" "Sandals" ["Sunglasses"; "Sun hat"; "Sunscreen"]
  end.

(** The temperature band of each tier: a boundary belongs to the band
    above it. *)
Definition in_band (t : Q) (k : tier) : Prop :=
  match k with
  | Cold => (t < 50)%Q
  | Cool => (50 <= t)%Q /\ (t < 65)%Q
  | Mild => (65 <= t)%Q /\ (t < 75)%Q
  | Warm => (75 <= t)%Q /\ (t < 85)%Q
  | Hot => (85 <= t)%Q
  end.

(** The tier the recommender selects at temperature [t]: the outfit it
    returns when neither the condition nor the mood adjusts anything. *)
Definition selects (t : Q) (k : tier) : Prop :=
  exists r,
    get_outfit_recommendation (weather_of (JNum t) (JStr "Clear")) [] = Ok r
    /\ outfit r = tier_outfit k.

Lemma tier_outfit_inj (j k : tier) : tier_outfit j = tier_outfit k -> j = k.
Proof. destruct j, k; simpl; intros H; try reflexivity; discriminate H. Qed.

Lemma in_band_total (t : Q) : exists k, in_band t k.
Proof.
  destruct (Qlt_le_dec t 50); [exists Cold; assumption |].
  destruct (Qlt_le_dec t 65); [exists Cool; split; assumption |].
  destruct (Qlt_le_dec t 75); [exists Mild; split; assumption |].
  destruct (Qlt_le_dec t 85); [exists Warm; split; assumption |].
  exists Hot; assumption.
Qed.

Lemma temperature_based_band (t : Q) (k : tier) (o : Outfit) :
  in_band t k -> temperature_based (JNum t) o = Ok (tier_outfit k).
Proof.
  unfold temperature_based, py_lt; simpl.
  destruct k; simpl; intros H.
  - apply Qlt_bool_iff in H. rewrite H. reflexivity.
  - destruct H as [H1 H2].
    apply Qlt_bool_false_iff in H1. apply Qlt_bool_iff in H2.
    rewrite H1; simpl. rewrite H2. reflexivity.
  - destruct H as [H1 H2].
    assert (H0 : (50 <= t)%Q) by (apply Qle_trans with 65%Q; [discriminate | exact H1]).
    apply Qlt_bool_false_iff in H0, H1. apply Qlt_bool_iff in H2.
    rewrite H0; simpl. rewrite H1; simpl. rewrite H2. reflexivity.
  - destruct H as [H1 H2].
    assert (H0 : (65 <= t)%Q) by (apply Qle_trans with 75%Q; [discriminate | exact H1]).
    assert (H0' : (50 <= t)%Q) by (apply Qle_trans with 65%Q; [discriminate | exact H0]).
    apply Qlt_bool_false_iff in H0', H0, H1. apply Qlt_bool_iff in H2.
    rewrite H0'; simpl. rewrite H0; simpl. rewrite H1; simpl. rewrite H2.
    reflexivity.
  - assert (H1 : (75 <= t)%Q) by (apply Qle_trans with 85%Q; [discriminate | exact H]).
    assert (H0 : (65 <= t)%Q) by (apply Qle_trans with 75%Q; [discriminate | exact H1]).
    assert (H0' : (50 <= t)%Q) by (apply Qle_trans with 65%Q; [discriminate | exact H0]).
    apply Qlt_bool_false_iff in H0', H0, H1, H.
    rewrite H0'; simpl. rewrite H0; simpl. rewrite H1; simpl. rewrite H; simpl.
    reflexivity.
Qed.

(** ** The recommender as a function of what it reads *)

(** [weather_data] holds [temp] at ['main']['temp'] and [condition] at
    ['weather'][0]['main'], app.py:30-31. *)
Definition reads_weather (weather_data temp condition : json) : Prop :=
  (let? main := getitem weather_data "main" in getitem main "temp") = Ok temp
  /\ (let? weather := getitem weather_data "weather" in
      let? weather0 := getitem0 weather in
      getitem weather0 "main") = Ok condition.

Definition mood_of (preferences : dict) : json :=
  dict_get "mood" (JStr "casual") preferences.

Definition color_of (preferences : dict) : json :=
  dict_get "color_preference" (JStr "neutral") preferences.

(** Python values that can be dict keys. *)
Definition hashable (v : json) : bool :=
  match v with
  | JArr _ | JObj _ => false
  | _ => true
  end.

Definition neutral_palette : list string := ["Navy"; "Beige"; "White"; "Gray"].

Lemma reads_weather_of (temp condition : json) :
  reads_weather (weather_of temp condition) temp condition.
Proof. split; reflexivity. Qed.

Lemma get_outfit_recommendation_reads (wd temp c : json) (p : dict) :
  reads_weather wd temp c ->
  get_outfit_recommendation wd p =
    (let? base := temperature_based temp initial_outfit in
     let? palette := table_get color_palettes (color_of p) neutral_palette in
     let? tips := generate_style_tips temp c (mood_of p) in
     Ok (mkRecommendation
           (mood_adjustments (mood_of p) (condition_adjustments c base))
           palette tips)).
Proof.
  intros [Ht Hc]. unfold get_outfit_recommendation.
  destruct (getitem wd "main") as [main|e]; simpl in Ht; [| discriminate Ht].
  simpl. rewrite Ht. simpl.
  destruct (getitem wd "weather") as [w|e]; simpl in Hc; [| discriminate Hc].
  simpl.
  destruct (getitem0 w) as [w0|e]; simpl in Hc; [| discriminate Hc].
  simpl. rewrite Hc. reflexivity.
Qed.

Lemma generate_style_tips_total (t : Q) (c m : json) :
  exists tips, generate_style_tips (JNum t) c m = Ok tips.
Proof. unfold generate_style_tips, py_lt, py_gt; simpl. eexists; reflexivity. Qed.

Lemma table_get_hashable {V : Type} (table : list (string * V)) (key : json)
    (default : V) :
  hashable key = true -> exists v, table_get table key default = Ok v.
Proof.
  destruct key; simpl; intros H; try discriminate H; eexists; reflexivity.
Qed.

Lemma table_get_length (key : json) (pal : list string) :
  table_get color_palettes key neutral_palette = Ok pal -> length pal = 4%nat.
Proof.
  destruct key; simpl; intros H; try discriminate H;
    try (injection H as <-; reflexivity).
  injection H as <-.
  repeat match goal with
         | |- context [if ?b then _ else _] => destruct b; [reflexivity |]
         end.
  reflexivity.
Qed.

(** With a numeric temperature and a hashable colour preference the
    recommender returns, and its outfit is the tier's outfit after the
    condition pass and then the mood pass. *)
Lemma get_outfit_recommendation_band (wd c : json) (p : dict) (t : Q) (k : tier) :
  reads_weather wd (JNum t) c ->
  hashable (color_of p) = true ->
  in_band t k ->
  exists palette tips,
    get_outfit_recommendation wd p =
      Ok (mkRecommendation
            (mood_adjustments (mood_of p) (condition_adjustments c (tier_outfit k)))
            palette tips).
Proof.
  intros Hr Hh Hb.
  rewrite (get_outfit_recommendation_reads _ _ _ _ Hr).
  rewrite (temperature_based_band _ _ _ Hb).
  destruct (table_get_hashable color_palettes _ neutral_palette Hh) as [pal Hp].
  destruct (generate_style_tips_total t c (mood_of p)) as [tips Ht].
  exists pal, tips. cbn [ResultMonad.bind]. rewrite Hp. cbn [ResultMonad.bind].
  rewrite Ht. reflexivity.
Qed.

Lemma in_band_selects (u : Q) (k : tier) : in_band u k -> selects u k.
Proof.
  intros Hb.
  destruct (get_outfit_recommendation_band _ _ [] _ _
              (reads_weather_of (JNum u) (JStr "Clear")) eq_refl Hb)
    as (pal & tips & H).
  exists (mkRecommendation (tier_outfit k) pal tips).
  split; [exact H | reflexivity].
Qed.

(** The outfit of any answer of the recommender, by the band of the
    temperature. *)
Lemma get_outfit_recommendation_outfit (wd c : json) (p : dict) (t : Q)
    (k : tier) (r : Recommendation) :
  reads_weather wd (JNum t) c ->
  in_band t k ->
  get_outfit_recommendation wd p = Ok r ->
  outfit r = mood_adjustments (mood_of p) (condition_adjustments c (tier_outfit k)).
Proof.
  intros Hr Hb H.
  rewrite (get_outfit_recommendation_reads _ _ _ _ Hr) in H.
  rewrite (temperature_based_band _ _ _ Hb) in H.
  cbn [ResultMonad.bind] in H.
  destruct (table_get color_palettes (color_of p) neutral_palette) as [pal |];
    [| discriminate H].
  cbn [ResultMonad.bind] in H.
  destruct (generate_style_tips (JNum t) c (mood_of p)) as [tips |];
    [| discriminate H].
  cbn [ResultMonad.bind] in H.
  assert (E : r = mkRecommendation
                    (mood_adjustments (mood_of p)
                       (condition_adjustments c (tier_outfit k))) pal tips)
    by congruence.
  rewrite E. reflexivity.
Qed.

(** C2. For every temperature [t] the recommender selects exactly one of
    the five base tiers, and it is the tier whose band holds [t]: cold
    below 50, cool from 50 up to 65, mild from 65 up to 75, warm from 75 up
    to 85, hot from 85 on; so each boundary value falls in the higher tier
    (at 50 the cool tier is selected and the cold tier is not). *)
Theorem C2_tier_selection (t : Q) :
  (exists! k, selects t k)
  /\ (forall k, selects t k <-> in_band t k)
  /\ (selects 50 Cool /\ ~ selects 50 Cold)
  /\ (forall o k, in_band t k -> temperature_based (JNum t) o = Ok (tier_outfit k)).
Proof.
  pose proof in_band_selects as Hsel.
  assert (Hband : forall u j k, in_band u j -> selects u k -> j = k).
  { intros u j k Hb (r & Hr & Ho).
    destruct (Hsel u j Hb) as (r' & Hr' & Ho').
    rewrite Hr in Hr'. assert (r = r') by congruence. subst r'.
    apply tier_outfit_inj. congruence. }
  repeat split.
  - destruct (in_band_total t) as [k Hk].
    exists k. split; [apply Hsel; exact Hk |].
    intros k' Hk'. apply (Hband t); assumption.
  - intros Hs. destruct (in_band_total t) as [j Hj].
    rewrite <- (Hband t j k Hj Hs). exact Hj.
  - apply Hsel.
  - apply Hsel. simpl. split; [discriminate | reflexivity].
  - intros Hs.
    assert (Hc : in_band 50 Cool) by (simpl; split; [discriminate | reflexivity]).
    discriminate (Hband 50 Cool Cold Hc Hs).
  - intros o k. apply temperature_based_band.
Qed.

(** ** The condition pass and the mood pass *)

Lemma mood_adjustments_outerwear (mood : json) (o : Outfit) :
  outerwear (mood_adjustments mood o) = outerwear o.
Proof.
  unfold mood_adjustments.
  destruct (py_eq_str mood "professional"); [reflexivity |].
  destruct (py_eq_str mood "adventurous"); [reflexivity |].
  destruct (py_eq_str mood "cozy"); reflexivity.
Qed.

Lemma mood_adjustments_no_override (mood : json) (o : Outfit) :
  mood <> JStr "professional" ->
  mood <> JStr "adventurous" ->
  footwear (mood_adjustments mood o) = footwear o
  /\ (mood = JStr "cozy" ->
      accessories (mood_adjustments mood o) = accessories o ++ ["Comfort scarf"])
  /\ (mood <> JStr "cozy" ->
      accessories (mood_adjustments mood o) = accessories o).
Proof.
  intros Hp Ha. apply py_eq_str_false in Hp, Ha.
  unfold mood_adjustments. rewrite Hp, Ha.
  destruct (py_eq_str mood "cozy") eqn:Hc.
  - repeat split; try reflexivity.
    apply py_eq_str_true in Hc. intros Hn. contradiction.
  - repeat split; try reflexivity.
    apply py_eq_str_false in Hc. intros He. contradiction.
Qed.

Lemma mood_adjustments_footwear (mood : json) (o : Outfit) :
  (mood = JStr "professional" ->
   footwear (mood_adjustments mood o) = "Dress shoes or heels")
  /\ (mood = JStr "adventurous" ->
      footwear (mood_adjustments mood o) = "Hiking boots or athletic shoes").
Proof. split; intros ->; reflexivity. Qed.

Lemma condition_adjustments_wet (c : json) (o : Outfit) :
  c = JStr "Rain" \/ c = JStr "Drizzle" \/ c = JStr "Thunderstorm" ->
  condition_adjustments c o =
    mkOutfit (top o) (bottom o) "Waterproof jacket or raincoat"
      "Waterproof boots or shoes" (accessories o ++ ["Umbrella"]).
Proof. intros [-> | [-> | ->]]; reflexivity. Qed.

Lemma condition_adjustments_snow (o : Outfit) :
  condition_adjustments (JStr "Snow") o =
    mkOutfit (top o) (bottom o) "Insulated winter coat" "Winter boots"
      (accessories o ++ ["Warm hat"; "Gloves"; "Scarf"]).
Proof. reflexivity. Qed.

(** C3. Whatever the temperature, for every mood that overrides neither
    outerwear nor footwear (any mood but professional and adventurous):
    under Rain, Drizzle or Thunderstorm the outerwear is the waterproof
    jacket, the footwear the waterproof boots, and "Umbrella" is appended
    to the tier's accessories; under Snow the outerwear is the insulated
    winter coat and the footwear the winter boots (and the three snow
    accessories are appended).  The only thing that can follow in the
    accessories is the "Comfort scarf" of the cozy mood. *)
Theorem C3_condition_override (wd c : json) (p : dict) (t : Q) :
  reads_weather wd (JNum t) c ->
  hashable (color_of p) = true ->
  mood_of p <> JStr "professional" ->
  mood_of p <> JStr "adventurous" ->
  exists r base,
    get_outfit_recommendation wd p = Ok r
    /\ temperature_based (JNum t) initial_outfit = Ok base
    /\ (c = JStr "Rain" \/ c = JStr "Drizzle" \/ c = JStr "Thunderstorm" ->
        outerwear (outfit r) = "Waterproof jacket or raincoat"
        /\ footwear (outfit r) = "Waterproof boots or shoes"
        /\ (mood_of p <> JStr "cozy" ->
            accessories (outfit r) = accessories base ++ ["Umbrella"])
        /\ (mood_of p = JStr "cozy" ->
            accessories (outfit r)
            = accessories base ++ ["Umbrella"] ++ ["Comfort scarf"]))
    /\ (c = JStr "Snow" ->
        outerwear (outfit r) = "Insulated winter coat"
        /\ footwear (outfit r) = "Winter boots"
        /\ (mood_of p <> JStr "cozy" ->
            accessories (outfit r)
            = accessories base ++ ["Warm hat"; "Gloves"; "Scarf"])
        /\ (mood_of p = JStr "cozy" ->
            accessories (outfit r)
            = accessories base ++ ["Warm hat"; "Gloves"; "Scarf"]
                ++ ["Comfort scarf"])).
Proof.
  intros Hr Hh Hp Ha.
  destruct (in_band_total t) as [k Hk].
  destruct (get_outfit_recommendation_band _ _ _ _ _ Hr Hh Hk)
    as (pal & tips & Hrec).
  eexists; exists (tier_outfit k).
  split; [exact Hrec |].
  split; [apply temperature_based_band; exact Hk |].
  cbn [outfit].
  destruct (mood_adjustments_no_override (mood_of p)
              (condition_adjustments c (tier_outfit k)) Hp Ha)
    as (Hfoot & Hcozy & Hplain).
  rewrite mood_adjustments_outerwear, Hfoot.
  split.
  - intros Hc. rewrite (condition_adjustments_wet _ _ Hc) in *.
    cbn [outerwear footwear accessories] in *.
    repeat split; try reflexivity.
    + intros Hm. apply Hplain. exact Hm.
    + intros Hm. rewrite (Hcozy Hm). rewrite <- app_assoc. reflexivity.
  - intros ->. rewrite condition_adjustments_snow in *.
    cbn [outerwear footwear accessories] in *.
    repeat split; try reflexivity.
    + intros Hm. apply Hplain. exact Hm.
    + intros Hm. rewrite (Hcozy Hm). rewrite <- app_assoc. reflexivity.
Qed.

Lemma C3_condition_override_witness :
  exists r base,
    get_outfit_recommendation (weather_of (JNum 80) (JStr "Rain"))
      (prefs_of (JStr "cozy") (JStr "casual") (JStr "warm")) = Ok r
    /\ temperature_based (JNum 80) initial_outfit = Ok base
    /\ outerwear (outfit r) = "Waterproof jacket or raincoat"
    /\ footwear (outfit r) = "Waterproof boots or shoes"
    /\ accessories (outfit r) = accessories base ++ ["Umbrella"] ++ ["Comfort scarf"].
Proof.
  destruct (C3_condition_override
              (weather_of (JNum 80) (JStr "Rain")) (JStr "Rain")
              (prefs_of (JStr "cozy") (JStr "casual") (JStr "warm")) 80
              (reads_weather_of _ _) eq_refl
              ltac:(discriminate) ltac:(discriminate))
    as (r & base & Hrec & Hbase & Hwet & _).
  exists r, base.
  destruct (Hwet (or_introl eq_refl)) as (Ho & Hf & _ & Hacc).
  repeat split; try assumption.
  apply Hacc. reflexivity.
Defined.

(** C4. Whatever the temperature and the weather condition (Rain,
    Drizzle, Thunderstorm and Snow included), the mood pass runs on the
    outcome of the condition pass, and the final footwear is the dress
    footwear for the professional mood and the hiking or athletic footwear
    for the adventurous mood. *)
Theorem C4_mood_override (wd c : json) (p : dict) (t : Q) :
  reads_weather wd (JNum t) c ->
  hashable (color_of p) = true ->
  exists r base,
    get_outfit_recommendation wd p = Ok r
    /\ temperature_based (JNum t) initial_outfit = Ok base
    /\ outfit r = mood_adjustments (mood_of p) (condition_adjustments c base)
    /\ (mood_of p = JStr "professional" ->
        footwear (outfit r) = "Dress shoes or heels")
    /\ (mood_of p = JStr "adventurous" ->
        footwear (outfit r) = "Hiking boots or athletic shoes").
Proof.
  intros Hr Hh.
  destruct (in_band_total t) as [k Hk].
  destruct (get_outfit_recommendation_band _ _ _ _ _ Hr Hh Hk)
    as (pal & tips & Hrec).
  eexists; exists (tier_outfit k).
  split; [exact Hrec |].
  split; [apply temperature_based_band; exact Hk |].
  cbn [outfit]. split; [reflexivity |].
  apply mood_adjustments_footwear.
Qed.

Lemma C4_mood_override_witness :
  exists r,
    get_outfit_recommendation (weather_of (JNum 20) (JStr "Snow"))
      (prefs_of (JStr "professional") (JStr "casual") (JStr "cool")) = Ok r
    /\ footwear (outfit r) = "Dress shoes or heels".
Proof.
  destruct (C4_mood_override
              (weather_of (JNum 20) (JStr "Snow")) (JStr "Snow")
              (prefs_of (JStr "professional") (JStr "casual") (JStr "cool")) 20
              (reads_weather_of _ _) eq_refl)
    as (r & base & Hrec & _ & _ & Hprof & _).
  exists r. split; [exact Hrec | apply Hprof; reflexivity].
Defined.

(** C5. At temperature 30 with condition "Snow" and mood "casual" the
    recommender returns outerwear "Insulated winter coat", footwear
    "Winter boots", and the accessories are the cold tier's (Scarf,
    Gloves, Beanie, in that order) followed by the appended Warm hat,
    Gloves, Scarf, in that order. *)
Theorem C5_snow_scenario (wd : json) (p : dict) :
  reads_weather wd (JNum 30) (JStr "Snow") ->
  mood_of p = JStr "casual" ->
  hashable (color_of p) = true ->
  exists r,
    get_outfit_recommendation wd p = Ok r
    /\ outerwear (outfit r) = "Insulated winter coat"
    /\ footwear (outfit r) = "Winter boots"
    /\ accessories (outfit r)
       = accessories (tier_outfit Cold) ++ ["Warm hat"; "Gloves"; "Scarf"]
    /\ accessories (outfit r)
       = ["Scarf"; "Gloves"; "Beanie"; "Warm hat"; "Gloves"; "Scarf"]
    /\ In "Warm hat" (accessories (outfit r))
    /\ In "Gloves" (accessories (outfit r))
    /\ In "Scarf" (accessories (outfit r)).
Proof.
  intros Hr Hm Hh.
  assert (Hk : in_band 30 Cold) by reflexivity.
  destruct (get_outfit_recommendation_band _ _ _ _ _ Hr Hh Hk)
    as (pal & tips & Hrec).
  eexists. split; [exact Hrec |].
  rewrite Hm. cbn. intuition.
Qed.

Lemma C5_snow_scenario_witness :
  exists r,
    get_outfit_recommendation (weather_of (JNum 30) (JStr "Snow"))
      (prefs_of (JStr "casual") (JStr "casual") (JStr "neutral")) = Ok r
    /\ outerwear (outfit r) = "Insulated winter coat"
    /\ footwear (outfit r) = "Winter boots"
    /\ accessories (outfit r)
       = ["Scarf"; "Gloves"; "Beanie"; "Warm hat"; "Gloves"; "Scarf"].
Proof.
  destruct (C5_snow_scenario
              (weather_of (JNum 30) (JStr "Snow"))
              (prefs_of (JStr "casual") (JStr "casual") (JStr "neutral"))
              (reads_weather_of _ _) eq_refl eq_refl)
    as (r & Hrec & Ho & Hf & _ & Hacc & _).
  exists r. repeat split; assumption.
Defined.

(** ** The colour palette *)

(** [color_preference] is none of the four names of the palette table. *)
Definition unknown_color (color : json) : Prop :=
  color <> JStr "neutral" /\ color <> JStr "warm"
  /\ color <> JStr "cool" /\ color <> JStr "vibrant".

Lemma get_outfit_recommendation_palette (wd : json) (p : dict)
    (r : Recommendation) :
  get_outfit_recommendation wd p = Ok r ->
  table_get color_palettes (color_of p) neutral_palette = Ok (color_palette r).
Proof.
  unfold get_outfit_recommendation. fold (color_of p). fold (mood_of p).
  destruct (getitem wd "main") as [main|]; [| discriminate].
  cbn [ResultMonad.bind].
  destruct (getitem main "temp") as [temp|]; [| discriminate].
  cbn [ResultMonad.bind].
  destruct (getitem wd "weather") as [w|]; [| discriminate].
  cbn [ResultMonad.bind].
  destruct (getitem0 w) as [w0|]; [| discriminate].
  cbn [ResultMonad.bind].
  destruct (getitem w0 "main") as [c|]; [| discriminate].
  cbn [ResultMonad.bind].
  destruct (temperature_based temp _) as [o|]; [| discriminate].
  cbn [ResultMonad.bind].
  change (subscript color_palettes "neutral") with (Ok neutral_palette).
  cbn [ResultMonad.bind].
  destruct (table_get color_palettes (color_of p) neutral_palette) as [pal|];
    [| discriminate].
  cbn [ResultMonad.bind].
  destruct (generate_style_tips temp c (mood_of p)) as [tips|]; [| discriminate].
  cbn [ResultMonad.bind].
  intros H. assert (Hr : r = mkRecommendation
                               (mood_adjustments (mood_of p)
                                  (condition_adjustments c o)) pal tips)
    by congruence.
  rewrite Hr. reflexivity.
Qed.

Lemma table_get_unknown (color : json) (pal : list string) :
  unknown_color color ->
  table_get color_palettes color neutral_palette = Ok pal ->
  pal = neutral_palette.
Proof.
  intros (Hn & Hw & Hc & Hv).
  destruct color; simpl; intros H; try discriminate H; try congruence.
  assert (E1 : String.eqb s "neutral" = false)
    by (apply String.eqb_neq; congruence).
  assert (E2 : String.eqb s "warm" = false)
    by (apply String.eqb_neq; congruence).
  assert (E3 : String.eqb s "cool" = false)
    by (apply String.eqb_neq; congruence).
  assert (E4 : String.eqb s "vibrant" = false)
    by (apply String.eqb_neq; congruence).
  rewrite E1, E2, E3, E4 in H. congruence.
Qed.

(** C6. Every palette the recommender returns has exactly four colour
    names; for every [color_preference] that is none of neutral, warm,
    cool and vibrant it is the neutral palette, the list returned for
    "neutral" itself; and for such a preference the recommender does
    return whenever the value can be a dict key at all (a string, a
    number, a boolean or null) and the temperature is a number. *)
Theorem C6_palette_fallback (wd : json) (p : dict) :
  (forall r,
      get_outfit_recommendation wd p = Ok r ->
      length (color_palette r) = 4%nat
      /\ (color_of p = JStr "neutral" ->
          color_palette r = ["Navy"; "Beige"; "White"; "Gray"])
      /\ (unknown_color (color_of p) ->
          color_palette r = ["Navy"; "Beige"; "White"; "Gray"]))
  /\ (forall t c,
         reads_weather wd (JNum t) c ->
         hashable (color_of p) = true ->
         exists r, get_outfit_recommendation wd p = Ok r).
Proof.
  split.
  - intros r Hr. apply get_outfit_recommendation_palette in Hr.
    split; [exact (table_get_length _ _ Hr) |].
    split.
    + intros Hc. rewrite Hc in Hr. simpl in Hr. congruence.
    + intros Hu. exact (table_get_unknown _ _ Hu Hr).
  - intros t c Hr Hh.
    destruct (in_band_total t) as [k Hk].
    destruct (get_outfit_recommendation_band _ _ _ _ _ Hr Hh Hk)
      as (pal & tips & Hrec).
    eexists. exact Hrec.
Qed.

Lemma C6_palette_fallback_witness :
  exists r,
    get_outfit_recommendation (weather_of (JNum 70) (JStr "Clear"))
      (prefs_of (JStr "casual") (JStr "casual") (JStr "pastel")) = Ok r
    /\ length (color_palette r) = 4%nat
    /\ color_palette r = ["Navy"; "Beige"; "White"; "Gray"].
Proof.
  pose proof (C6_palette_fallback
                (weather_of (JNum 70) (JStr "Clear"))
                (prefs_of (JStr "casual") (JStr "casual") (JStr "pastel")))
    as [Hpal Htotal].
  destruct (Htotal 70 (JStr "Clear") (reads_weather_of _ _) eq_refl) as [r Hr].
  exists r. split; [exact Hr |].
  destruct (Hpal r Hr) as (Hlen & _ & Hunknown).
  split; [exact Hlen |].
  apply Hunknown. repeat split; discriminate.
Defined.

(** ** The style preference *)

Lemma get_outfit_recommendation_prefs (wd : json) (p1 p2 : dict) :
  mood_of p1 = mood_of p2 ->
  color_of p1 = color_of p2 ->
  get_outfit_recommendation wd p1 = get_outfit_recommendation wd p2.
Proof.
  intros Hm Hc. unfold get_outfit_recommendation.
  fold (mood_of p1) (mood_of p2) (color_of p1) (color_of p2).
  rewrite Hm, Hc. reflexivity.
Qed.

(** C9. Two preference records that agree on every key but
    [style_preference] get the same answer from the recommender on every
    weather document: the same outfit, palette and tips, or the same
    exception. *)
Theorem C9_style_preference_inert (wd : json) (p1 p2 : dict) :
  (forall k, k <> "style_preference" -> dict_lookup k p1 = dict_lookup k p2) ->
  get_outfit_recommendation wd p1 = get_outfit_recommendation wd p2.
Proof.
  intros H. apply get_outfit_recommendation_prefs.
  - unfold mood_of, dict_get. rewrite (H "mood"); [reflexivity | discriminate].
  - unfold color_of, dict_get.
    rewrite (H "color_preference"); [reflexivity | discriminate].
Qed.

Lemma string_eqb_neq_false (a b : string) : a <> b -> String.eqb a b = false.
Proof. apply String.eqb_neq. Qed.

Lemma C9_style_preference_inert_witness :
  get_outfit_recommendation (weather_of (JNum 58) (JStr "Drizzle"))
    (prefs_of (JStr "cozy") (JStr "streetwear") (JStr "vibrant"))
  = get_outfit_recommendation (weather_of (JNum 58) (JStr "Drizzle"))
      (prefs_of (JStr "cozy") (JStr "formal") (JStr "vibrant")).
Proof.
  apply C9_style_preference_inert.
  intros k Hk. unfold prefs_of. cbn [dict_lookup].
  rewrite (string_eqb_neq_false _ _ Hk). reflexivity.
Defined.

(** ** The image adapter *)

(** The calls of [search_unsplash_image] in a call log, each with the key
    of [search_queries] it was made for and its query. *)
Fixpoint search_calls (log : list event) : list (string * string) :=
  match log with
  | [] => []
  | Call_search_unsplash_image key q :: log' => (key, q) :: search_calls log'
  | _ :: log' => search_calls log'
  end.

(** The requests sent to the photo service in a call log. *)
Fixpoint photo_requests (log : list event) : list SearchParams :=
  match log with
  | [] => []
  | Call_photo_service params :: log' => params :: photo_requests log'
  | _ :: log' => photo_requests log'
  end.

Lemma search_calls_app (l1 l2 : list event) :
  search_calls (l1 ++ l2) = search_calls l1 ++ search_calls l2.
Proof.
  induction l1 as [| ev l1 IH]; [reflexivity |].
  destruct ev; simpl; rewrite IH; reflexivity.
Qed.

Lemma photo_requests_app (l1 l2 : list event) :
  photo_requests (l1 ++ l2) = photo_requests l1 ++ photo_requests l2.
Proof.
  induction l1 as [| ev l1 IH]; [reflexivity |].
  destruct ev; simpl; rewrite IH; reflexivity.
Qed.

Section Adapter.

Variable cfg : Config.
Variable world : World.

(** The request one lookup sends, and the answer the world gives it. *)
Definition photo_params (q orient : string) : SearchParams :=
  mkSearchParams q 1 orient "high".

Definition photo_answer (q orient : string) (log : list event) : http_outcome :=
  photo_service world log (photo_params q orient)
    match UNSPLASH_ACCESS_KEY cfg with Some k => k | None => "" end.

Lemma search_unsplash_image_unset (q orient : string) (log : list event) :
  key_unset (UNSPLASH_ACCESS_KEY cfg) = true ->
  search_unsplash_image cfg world q orient log = (Ok None, log).
Proof. intros H. unfold search_unsplash_image. rewrite H. reflexivity. Qed.

(** The adapter never raises; it adds no call of itself to the log. *)
Lemma search_unsplash_image_returns (q orient : string) (log : list event) :
  exists image ext,
    search_unsplash_image cfg world q orient log = (Ok image, log ++ ext)
    /\ search_calls ext = [].
Proof.
  unfold search_unsplash_image.
  destruct (key_unset (UNSPLASH_ACCESS_KEY cfg)).
  { exists None, []. rewrite app_nil_r. split; reflexivity. }
  unfold IOMonad.try_except, search_unsplash_image_try, IOMonad.bind,
    IOMonad.history, IOMonad.emit, IOMonad.lift, IOMonad.ret.
  destruct (photo_service world log _ _) as [e | status_code json_].
  { exists None, [Call_photo_service (mkSearchParams q 1 orient "high");
                  Call_print e].
    rewrite <- app_assoc. split; reflexivity. }
  destruct (status_code =? 200)%Z.
  2: { eexists None, [_]. split; reflexivity. }
  destruct json_ as [data | e].
  2: { eexists None, [_; Call_print e].
       rewrite <- app_assoc. split; reflexivity. }
  destruct (getitem data "results") as [results | e].
  2: { eexists None, [_; Call_print e].
       rewrite <- app_assoc. split; reflexivity. }
  destruct (truthy results).
  2: { eexists None, [_]. split; reflexivity. }
  match goal with
  | |- context [match ?res with Ok _ => _ | Raise _ => _ end] =>
      destruct res as [image | e]
  end.
  - eexists image, [_]. split; reflexivity.
  - eexists None, [_; Call_print e].
    rewrite <- app_assoc. split; reflexivity.
Qed.

(** An upstream exception, a non-success status, a body that is not
    JSON and an empty result list each give an absent result. *)
Lemma search_unsplash_image_absent (q orient : string) (log : list event) :
  (exists e, photo_answer q orient log = Http_raise e)
  \/ (exists status_code json_,
         photo_answer q orient log = Http_response status_code json_
         /\ status_code <> 200%Z)
  \/ (exists e, photo_answer q orient log = Http_response 200 (Raise e))
  \/ (exists data,
         photo_answer q orient log = Http_response 200 (Ok data)
         /\ getitem data "results" = Ok (JArr [])) ->
  fst (search_unsplash_image cfg world q orient log) = Ok None.
Proof.
  unfold photo_answer, photo_params, search_unsplash_image.
  destruct (key_unset (UNSPLASH_ACCESS_KEY cfg)); [reflexivity |].
  unfold IOMonad.try_except, search_unsplash_image_try, IOMonad.bind,
    IOMonad.history, IOMonad.emit, IOMonad.lift, IOMonad.ret.
  intros [[e H] | [(s & j & H & Hs) | [[e H] | (data & H & Hres)]]];
    rewrite H.
  - reflexivity.
  - apply Z.eqb_neq in Hs. rewrite Hs. reflexivity.
  - reflexivity.
  - simpl. rewrite Hres. reflexivity.
Qed.

(** The queries [get_outfit_images] looks up, in order: those of
    [search_queries] that are neither None nor empty. *)
Fixpoint scheduled (items : list (string * option string))
  : list (string * string) :=
  match items with
  | [] => []
  | (key, Some q) :: rest =>
      if negb (String.eqb q "") then (key, q) :: scheduled rest
      else scheduled rest
  | (_, None) :: rest => scheduled rest
  end.

Lemma collect_images_returns (items : list (string * option string)) :
  forall images log,
  exists images' ext,
    collect_images cfg world items images log = (Ok images', log ++ ext)
    /\ search_calls ext = scheduled items
    /\ (key_unset (UNSPLASH_ACCESS_KEY cfg) = true ->
        images' = images /\ photo_requests ext = []).
Proof.
  induction items as [| [key q] rest IH]; intros images log.
  { exists images, []. rewrite app_nil_r. repeat split; reflexivity. }
  cbn [collect_images scheduled].
  destruct q as [q |]; [| apply IH].
  destruct (negb (String.eqb q "")); [| apply IH].
  unfold IOMonad.bind at 1, IOMonad.emit.
  unfold IOMonad.bind at 1.
  destruct (search_unsplash_image_returns q "portrait"
              (log ++ [Call_search_unsplash_image key q]))
    as (image & ext1 & Hs & Hc1).
  rewrite Hs.
  pose proof (search_unsplash_image_unset q "portrait"
                (log ++ [Call_search_unsplash_image key q])) as Hunset.
  destruct image as [img |].
  - destruct (IH (dict_set key img images)
                ((log ++ [Call_search_unsplash_image key q]) ++ ext1))
      as (images' & ext2 & Hrest & Hc2 & Hk2).
    exists images', ([Call_search_unsplash_image key q] ++ ext1 ++ ext2).
    rewrite Hrest. rewrite <- !app_assoc. split; [reflexivity |].
    split.
    + rewrite !search_calls_app, Hc1, Hc2. reflexivity.
    + intros Hk. specialize (Hunset Hk). rewrite Hs in Hunset.
      discriminate Hunset.
  - destruct (IH images
                ((log ++ [Call_search_unsplash_image key q]) ++ ext1))
      as (images' & ext2 & Hrest & Hc2 & Hk2).
    exists images', ([Call_search_unsplash_image key q] ++ ext1 ++ ext2).
    rewrite Hrest. rewrite <- !app_assoc. split; [reflexivity |].
    split.
    + rewrite !search_calls_app, Hc1, Hc2. reflexivity.
    + intros Hk. specialize (Hunset Hk). rewrite Hs in Hunset.
      assert (Hext : ext1 = []).
      { injection Hunset as Hl.
        rewrite <- (app_nil_r (log ++ _)) in Hl at 2.
        apply app_inv_head in Hl. exact Hl. }
      destruct (Hk2 Hk) as [Hi Hp]. subst ext1.
      split; [exact Hi |].
      rewrite !photo_requests_app, Hp. reflexivity.
Qed.

(** [get_outfit_images] never raises; it calls the adapter for the
    scheduled queries, one call each, in the order of [search_queries];
    with the access key unset it returns the empty mapping and sends
    nothing to the photo service. *)
Lemma get_outfit_images_returns (o : Outfit) (log : list event) :
  exists images ext,
    get_outfit_images cfg world o log = (Ok images, log ++ ext)
    /\ search_calls ext = scheduled (search_queries o)
    /\ (key_unset (UNSPLASH_ACCESS_KEY cfg) = true ->
        images = [] /\ photo_requests ext = []).
Proof. unfold get_outfit_images. apply collect_images_returns. Qed.

End Adapter.

Lemma append_suffix_nonempty (s : string) :
  String.eqb (s ++ " fashion flatlay") "" = false.
Proof. destruct s; reflexivity. Qed.

(** Which lookups an outfit gets: top and bottom, outerwear unless the
    string is empty or "None needed", footwear, and the generic query. *)
Lemma scheduled_search_queries (o : Outfit) :
  scheduled (search_queries o) =
    [ ("top", (top o ++ " fashion flatlay")%string);
      ("bottom", (bottom o ++ " fashion flatlay")%string) ]
    ++ (if negb (String.eqb (outerwear o) "")
           && negb (String.eqb (outerwear o) "None needed")
        then [("outerwear", (outerwear o ++ " fashion flatlay")%string)]
        else [])
    ++ [ ("footwear", (footwear o ++ " fashion flatlay")%string);
         ("outfit_complete",
           "complete outfit flatlay fashion minimal aesthetic") ].
Proof.
  unfold search_queries. cbn [scheduled].
  rewrite !append_suffix_nonempty. cbn [negb].
  destruct (negb (String.eqb (outerwear o) "")
            && negb (String.eqb (outerwear o) "None needed")).
  - cbn [scheduled]. rewrite append_suffix_nonempty. reflexivity.
  - reflexivity.
Qed.

(** C1. At temperature 90 with condition "Clear" and mood "casual" the
    recommender returns the hot tier's outfit, whose outerwear is the
    string "None", and [get_outfit_images] then calls the image adapter
    five times: for top, bottom, outerwear (with the query "None fashion
    flatlay"), footwear and the generic complete-outfit query.  The
    outerwear lookup is skipped only for the empty string and for "None
    needed", so the claim that it is skipped for "None" fails here. *)
Theorem C1_outerwear_none_is_looked_up (cfg : Config) (world : World) :
  exists r images log,
    get_outfit_recommendation (weather_of (JNum 90) (JStr "Clear"))
      (prefs_of (JStr "casual") (JStr "casual") (JStr "neutral")) = Ok r
    /\ outerwear (outfit r) = "None"
    /\ get_outfit_images cfg world (outfit r) [] = (Ok images, log)
    /\ search_calls log =
         [ ("top", "Light, breathable tank or t-shirt fashion flatlay");
           ("bottom", "Shorts fashion flatlay");
           ("outerwear", "None fashion flatlay");
           ("footwear", "Sandals fashion flatlay");
           ("outfit_complete",
             "complete outfit flatlay fashion minimal aesthetic") ].
Proof.
  eexists.
  destruct (get_outfit_images_returns cfg world (tier_outfit Hot) [])
    as (images & ext & Himg & Hcalls & _).
  exists images, ext.
  split; [reflexivity |].
  split; [reflexivity |].
  split; [exact Himg |].
  rewrite Hcalls. reflexivity.
Qed.

(** ** The request handler *)

(** The dict [preferences] the handler builds from the request body,
    app.py:224-228. *)
Definition request_preferences (d : dict) : dict :=
  [ ("mood", dict_get "mood" (JStr "casual") d);
    ("style_preference", dict_get "style_preference" (JStr "casual") d);
    ("color_preference", dict_get "color_preference" (JStr "neutral") d) ].

Section Handler.

Variable cfg : Config.
Variable world : World.

Lemma outfit_recommendation_no_location (d : dict) :
  dict_lookup "location" d = None ->
  outfit_recommendation cfg world (Ok (JObj d))
  = ((Error_body "Location is required", 400%Z), []).
Proof.
  intros H. unfold outfit_recommendation, outfit_recommendation_try,
    IOMonad.bind, IOMonad.lift, IOMonad.ret.
  destruct d as [| kv d']; [reflexivity |].
  cbn [truthy negb location_not_in]. rewrite H. reflexivity.
Qed.

(** The successful path: the body has a location, the weather service
    answers 200 with a document from which the weather summary and the
    recommendation can be computed. *)
Lemma outfit_recommendation_ok (d : dict) (loc wd : json) (wi : WeatherInfo)
    (rec : Recommendation) :
  dict_lookup "location" d = Some loc ->
  weather_service world [] loc (OPENWEATHER_API_KEY cfg)
    = Http_response 200 (Ok wd) ->
  weather_info_of wd = Ok wi ->
  get_outfit_recommendation wd (request_preferences d) = Ok rec ->
  exists images ext,
    outfit_recommendation cfg world (Ok (JObj d))
    = ((Response_body
          (mkResponse loc wi (outfit rec) images (color_palette rec)
             (style_tips rec)), 200%Z),
       [ Call_weather_service loc (OPENWEATHER_API_KEY cfg);
         Call_get_outfit_recommendation;
         Call_get_outfit_images ] ++ ext)
    /\ search_calls ext = scheduled (search_queries (outfit rec))
    /\ (key_unset (UNSPLASH_ACCESS_KEY cfg) = true ->
        images = [] /\ photo_requests ext = []).
Proof.
  intros Hloc Hweather Hinfo Hrec.
  destruct (get_outfit_images_returns cfg world (outfit rec)
              [ Call_weather_service loc (OPENWEATHER_API_KEY cfg);
                Call_get_outfit_recommendation;
                Call_get_outfit_images ])
    as (images & ext & Himg & Hcalls & Hunset).
  exists images, ext. split; [| split; assumption].
  unfold outfit_recommendation, outfit_recommendation_try,
    IOMonad.bind, IOMonad.lift, IOMonad.ret, IOMonad.history, IOMonad.emit.
  destruct d as [| kv d']; [discriminate Hloc |].
  cbn [truthy negb location_not_in getitem py_get]. rewrite Hloc.
  fold (request_preferences (kv :: d')).
  rewrite Hweather. cbn [Z.eqb Pos.eqb negb app].
  rewrite Hinfo, Hrec. cbn [app].
  rewrite Himg. reflexivity.
Qed.

End Handler.

(** C7. When [request.get_json()] returns None or another falsy value
    (null, an empty object), or returns a JSON object that has no
    "location" key, the handler replies 400 with the body
    [{"error": "Location is required"}] and its call log is empty: neither
    the weather service, nor the recommender, nor the image adapter has
    been called. *)
Theorem C7_location_required (cfg : Config) (world : World) (data : json) :
  truthy data = false
  \/ (exists d, data = JObj d /\ dict_lookup "location" d = None) ->
  outfit_recommendation cfg world (Ok data)
  = ((Error_body "Location is required", 400%Z), []).
Proof.
  intros [H | (d & -> & H)].
  - unfold outfit_recommendation, outfit_recommendation_try,
      IOMonad.bind, IOMonad.lift, IOMonad.ret.
    rewrite H. reflexivity.
  - apply outfit_recommendation_no_location. exact H.
Qed.

Lemma C7_location_required_witness :
  outfit_recommendation (mkConfig (Some "w") (Some "u"))
    (mkWorld (fun _ _ _ => Http_raise RequestException)
       (fun _ _ _ => Http_raise RequestException))
    (Ok (JObj [("mood", JStr "cozy")]))
  = ((Error_body "Location is required", 400%Z), []).
Proof.
  apply C7_location_required.
  right. exists [("mood", JStr "cozy")]. split; reflexivity.
Defined.

(** A body lacks the "location" key when it is not an object that has it. *)
Definition lacks_location_key (data : json) : Prop :=
  forall d, data = JObj d -> dict_lookup "location" d = None.

(** C7, as first stated, fails.  The body [5] lacks a "location" key, yet
    the membership test of app.py:218 raises TypeError on it and the reply
    is 500; so does the body [true].  And when [request.get_json()] itself
    raises, as it does inside the [try] for a request without a JSON body,
    the reply is 500 as well.  None of these replies is the 400 of the
    claim. *)
Lemma C7_counterexample :
  lacks_location_key (JNum 5)
  /\ outfit_recommendation (mkConfig (Some "w") (Some "u"))
       (mkWorld (fun _ _ _ => Http_raise RequestException)
          (fun _ _ _ => Http_raise RequestException))
       (Ok (JNum 5))
     = ((Internal_error_body TypeError, 500%Z), [])
  /\ outfit_recommendation (mkConfig (Some "w") (Some "u"))
       (mkWorld (fun _ _ _ => Http_raise RequestException)
          (fun _ _ _ => Http_raise RequestException))
       (Ok (JBool true))
     = ((Internal_error_body TypeError, 500%Z), [])
  /\ outfit_recommendation (mkConfig (Some "w") (Some "u"))
       (mkWorld (fun _ _ _ => Http_raise RequestException)
          (fun _ _ _ => Http_raise RequestException))
       (Raise OtherException)
     = ((Internal_error_body OtherException, 500%Z), []).
Proof.
  split; [intros d H; discriminate H |].
  repeat split; reflexivity.
Qed.

(** ** Rounding next to a tier boundary *)

(** The four boundaries, each with the tier below and the tier from the
    boundary on. *)
Inductive tier_boundary : Z -> tier -> tier -> Prop :=
  | boundary_50 : tier_boundary 50 Cold Cool
  | boundary_65 : tier_boundary 65 Cool Mild
  | boundary_75 : tier_boundary 75 Mild Warm
  | boundary_85 : tier_boundary 85 Warm Hot.

Lemma round_half_even_below (q : Q) (b : Z) :
  (inject_Z b - (1 # 2) < q)%Q -> (q < inject_Z b)%Q ->
  round_half_even q = b.
Proof.
  destruct q as [n d]. unfold Qlt, Qminus, Qplus, Qopp, inject_Z, round_half_even.
  cbn [Qnum Qden]. intros Hlo Hhi.
  assert (Hd : (0 < Z.pos d)%Z) by reflexivity.
  assert (Hf : (n / Z.pos d = b - 1)%Z).
  { symmetry. apply Z.div_unique with (r := (n - Z.pos d * (b - 1))%Z); lia. }
  assert (Hr : (n mod Z.pos d = n - Z.pos d * (b - 1))%Z).
  { rewrite Z.mod_eq by lia. rewrite Hf. reflexivity. }
  rewrite Hf, Hr.
  assert (Hc : (2 * (n - Z.pos d * (b - 1)) ?= Z.pos d)%Z = Gt).
  { apply Z.compare_gt_iff. lia. }
  rewrite Hc. lia.
Qed.

Lemma tier_boundary_bands (b : Z) (lo hi : tier) (t : Q) :
  tier_boundary b lo hi ->
  (inject_Z b - (1 # 2) < t)%Q -> (t < inject_Z b)%Q ->
  in_band t lo /\ in_band (inject_Z b) hi /\ lo <> hi.
Proof.
  destruct t as [n d].
  intros Hb; destruct Hb;
    unfold in_band, Qlt, Qle, Qminus, Qplus, Qopp, inject_Z;
    cbn [Qnum Qden]; intros Hlo Hhi;
    (split; [| split; [| discriminate]]); lia.
Qed.

Lemma weather_info_temperature (wd c : json) (wi : WeatherInfo) (t : Q) :
  reads_weather wd (JNum t) c ->
  weather_info_of wd = Ok wi ->
  temperature wi = round_half_even t.
Proof.
  intros [Ht _]. unfold weather_info_of.
  destruct (getitem wd "main") as [main |]; [| discriminate Ht].
  cbn [ResultMonad.bind] in *. rewrite Ht.
  cbn [ResultMonad.bind py_round as_number].
  repeat match goal with
         | |- context [ResultMonad.bind ?m _] =>
             destruct m; cbn [ResultMonad.bind]; [| discriminate]
         end.
  intros H. inversion H. reflexivity.
Qed.

(** A weather service that always answers 200 with the given document,
    and a photo service that is never reachable. *)
Definition constant_world (wd : json) : World :=
  mkWorld (fun _ _ _ => Http_response 200 (Ok wd))
          (fun _ _ _ => Http_raise RequestException).

Definition sample_weather (temp : Q) (cond : string) : json :=
  JObj [ ("weather",
           JArr [JObj [("main", JStr cond); ("description", JStr cond)]]);
         ("main", JObj [("temp", JNum temp); ("humidity", JNum 40)]);
         ("wind", JObj [("speed", JNum (5 # 2))]) ].

(** C10. On the successful path the weather summary of the response shows
    the temperature rounded to the nearest integer, while the outfit,
    palette and tips are the recommender's answer on the weather document
    as received, with the temperature unrounded.  So for a temperature
    less than half a degree below a tier boundary the summary shows the
    boundary value, which belongs to the higher tier, and the outfit is
    built from the lower tier. *)
Theorem C10_display_rounded_outfit_unrounded (cfg : Config) (world : World)
    (d : dict) (loc wd c : json) (wi : WeatherInfo) (rec : Recommendation)
    (t : Q) :
  dict_lookup "location" d = Some loc ->
  weather_service world [] loc (OPENWEATHER_API_KEY cfg)
    = Http_response 200 (Ok wd) ->
  weather_info_of wd = Ok wi ->
  get_outfit_recommendation wd (request_preferences d) = Ok rec ->
  reads_weather wd (JNum t) c ->
  exists r log,
    outfit_recommendation cfg world (Ok (JObj d)) = ((Response_body r, 200%Z), log)
    /\ temperature (resp_weather r) = round_half_even t
    /\ get_outfit_recommendation wd (request_preferences d)
       = Ok (mkRecommendation (resp_outfit r) (resp_color_palette r)
               (resp_style_tips r))
    /\ (forall b lo hi,
           tier_boundary b lo hi ->
           (inject_Z b - (1 # 2) < t)%Q -> (t < inject_Z b)%Q ->
           temperature (resp_weather r) = b
           /\ selects (inject_Z (temperature (resp_weather r))) hi
           /\ selects t lo
           /\ lo <> hi
           /\ resp_outfit r
              = mood_adjustments (mood_of (request_preferences d))
                  (condition_adjustments c (tier_outfit lo))).
Proof.
  intros Hloc Hweather Hinfo Hrec Hreads.
  destruct (outfit_recommendation_ok cfg world d loc wd wi rec
              Hloc Hweather Hinfo Hrec) as (images & ext & Hreply & _).
  eexists; eexists. split; [exact Hreply |].
  cbn [resp_weather resp_outfit resp_color_palette resp_style_tips].
  pose proof (weather_info_temperature _ _ _ _ Hreads Hinfo) as Htemp.
  split; [exact Htemp |].
  split; [rewrite Hrec; destruct rec; reflexivity |].
  intros b lo hi Hb Hlow Hhigh.
  destruct (tier_boundary_bands _ _ _ _ Hb Hlow Hhigh) as (Hlo & Hhi & Hne).
  rewrite Htemp, (round_half_even_below _ _ Hlow Hhigh).
  split; [reflexivity |].
  split; [apply in_band_selects; exact Hhi |].
  split; [apply in_band_selects; exact Hlo |].
  split; [exact Hne |].
  apply (get_outfit_recommendation_outfit _ _ _ _ _ _ Hreads Hlo Hrec).
Qed.

Lemma C10_display_rounded_outfit_unrounded_witness :
  exists r log,
    outfit_recommendation (mkConfig (Some "w") None)
      (constant_world (sample_weather (496 # 10) "Clear"))
      (Ok (JObj [("location", JStr "Chicago")]))
    = ((Response_body r, 200%Z), log)
    /\ temperature (resp_weather r) = 50%Z
    /\ resp_outfit r = tier_outfit Cold
    /\ selects (inject_Z (temperature (resp_weather r))) Cool.
Proof.
  destruct (C10_display_rounded_outfit_unrounded
              (mkConfig (Some "w") None)
              (constant_world (sample_weather (496 # 10) "Clear"))
              [("location", JStr "Chicago")] (JStr "Chicago")
              (sample_weather (496 # 10) "Clear") (JStr "Clear")
              (mkWeatherInfo 50 (JStr "Clear") (JStr "Clear") (JNum 40) 2)
              (mkRecommendation (tier_outfit Cold) neutral_palette
                 "Layer your clothing for temperature flexibility")
              (496 # 10)
              eq_refl eq_refl eq_refl eq_refl (conj eq_refl eq_refl))
    as (r & log & Hreply & _ & _ & Hnear).
  exists r, log.
  destruct (Hnear 50%Z Cold Cool boundary_50 eq_refl eq_refl)
    as (Ht & Hsel & _ & _ & Ho).
  repeat split; assumption.
Defined.

(** C8. With the photo-search key unset every image lookup returns an
    absent result and leaves the call log as it was (the photo service is
    not contacted); a lookup never raises, and it is absent when the
    service call raises, answers with a status other than 200, answers
    with a body that is not JSON, or answers with no results.  On the
    successful path the handler therefore replies 200 whatever the photo
    service does, and with the key unset the response's [outfit_images]
    is the empty mapping and no request went to the photo service. *)
Theorem C8_absent_images_never_fail (cfg : Config) (world : World) :
  (key_unset (UNSPLASH_ACCESS_KEY cfg) = true ->
   forall q orient log,
     search_unsplash_image cfg world q orient log = (Ok None, log))
  /\ (forall q orient log,
         exists image ext,
           search_unsplash_image cfg world q orient log = (Ok image, log ++ ext))
  /\ (forall q orient log,
         (exists e, photo_answer cfg world q orient log = Http_raise e)
         \/ (exists status_code json_,
                photo_answer cfg world q orient log
                = Http_response status_code json_
                /\ status_code <> 200%Z)
         \/ (exists e,
                photo_answer cfg world q orient log
                = Http_response 200 (Raise e))
         \/ (exists data,
                photo_answer cfg world q orient log
                = Http_response 200 (Ok data)
                /\ getitem data "results" = Ok (JArr [])) ->
         fst (search_unsplash_image cfg world q orient log) = Ok None)
  /\ (forall d loc wd wi rec,
         dict_lookup "location" d = Some loc ->
         weather_service world [] loc (OPENWEATHER_API_KEY cfg)
           = Http_response 200 (Ok wd) ->
         weather_info_of wd = Ok wi ->
         get_outfit_recommendation wd (request_preferences d) = Ok rec ->
         exists images log,
           outfit_recommendation cfg world (Ok (JObj d))
           = ((Response_body
                 (mkResponse loc wi (outfit rec) images (color_palette rec)
                    (style_tips rec)), 200%Z), log)
           /\ (key_unset (UNSPLASH_ACCESS_KEY cfg) = true ->
               images = [] /\ photo_requests log = [])).
Proof.
  split; [| split; [| split]].
  - intros Hk q orient log. apply search_unsplash_image_unset. exact Hk.
  - intros q orient log.
    destruct (search_unsplash_image_returns cfg world q orient log)
      as (image & ext & H & _).
    exists image, ext. exact H.
  - intros q orient log. apply search_unsplash_image_absent.
  - intros d loc wd wi rec Hloc Hweather Hinfo Hrec.
    destruct (outfit_recommendation_ok cfg world d loc wd wi rec
                Hloc Hweather Hinfo Hrec)
      as (images & ext & Hreply & _ & Hunset).
    eexists; eexists. split; [exact Hreply |].
    intros Hk. destruct (Hunset Hk) as [Hi Hp].
    split; [exact Hi |].
    rewrite photo_requests_app, Hp. reflexivity.
Qed.

Lemma C8_absent_images_never_fail_witness :
  (forall q orient log,
      search_unsplash_image (mkConfig (Some "w") None)
        (constant_world (sample_weather 72 "Clear")) q orient log
      = (Ok None, log))
  /\ exists log,
       outfit_recommendation (mkConfig (Some "w") None)
         (constant_world (sample_weather 72 "Clear"))
         (Ok (JObj [("location", JStr "Chicago")]))
       = ((Response_body
             (mkResponse (JStr "Chicago")
                (mkWeatherInfo 72 (JStr "Clear") (JStr "Clear") (JNum 40) 2)
                (tier_outfit Mild) [] neutral_palette
                "Dress comfortably and confidently!"), 200%Z), log)
       /\ photo_requests log = [].
Proof.
  destruct (C8_absent_images_never_fail (mkConfig (Some "w") None)
              (constant_world (sample_weather 72 "Clear")))
    as (Hunset & _ & _ & Hhandler).
  split; [exact (Hunset eq_refl) |].
  destruct (Hhandler [("location", JStr "Chicago")] (JStr "Chicago")
              (sample_weather 72 "Clear")
              (mkWeatherInfo 72 (JStr "Clear") (JStr "Clear") (JNum 40) 2)
              (mkRecommendation (tier_outfit Mild) neutral_palette
                 "Dress comfortably and confidently!")
              eq_refl eq_refl eq_refl eq_refl)
    as (images & log & Hreply & Hk).
  destruct (Hk eq_refl) as [Hi Hp].
  exists log. subst images. split; [exact Hreply | exact Hp].
Defined.


(** * Further properties of the service *)

(** ** Style tips (app.py:119-135) *)

(** The text [generate_style_tips] assembles from its four tests. *)
Definition tips_text (layer wet breathable polished : bool) : string :=
  let tips := [] in
  let tips :=
    if layer then tips ++ ["Layer your clothing for temperature flexibility"]
    else tips in
  let tips :=
    if wet then tips ++ ["Choose water-resistant fabrics"] else tips in
  let tips :=
    if breathable
    then tips ++ ["Opt for breathable, moisture-wicking materials"]
    else tips in
  let tips :=
    if polished then tips ++ ["Keep accessories minimal and polished"]
    else tips in
  match tips with
  | [] => "Dress comfortably and confidently!"
  | _ => join " | " tips
  end.

Lemma generate_style_tips_num (t : Q) (c m : json) :
  generate_style_tips (JNum t) c m
  = Ok (tips_text (Qlt_bool t 65) (py_in_strs c ["Rain"; "Drizzle"])
          (Qlt_bool 75 t) (py_eq_str m "professional")).
Proof. reflexivity. Qed.

Lemma py_in_rain_drizzle_false (c : json) :
  py_in_strs c ["Rain"; "Drizzle"] = false
  <-> c <> JStr "Rain" /\ c <> JStr "Drizzle".
Proof.
  unfold py_in_strs. cbn [existsb]. rewrite !orb_false_iff, !py_eq_str_false.
  tauto.
Qed.

Lemma py_in_rain_drizzle_true (c : json) :
  py_in_strs c ["Rain"; "Drizzle"] = true
  <-> c = JStr "Rain" \/ c = JStr "Drizzle".
Proof.
  unfold py_in_strs. cbn [existsb]. rewrite !orb_true_iff, !py_eq_str_true.
  intuition discriminate.
Qed.

Lemma tips_text_fallback (b1 b2 b3 b4 : bool) :
  Ok (tips_text b1 b2 b3 b4) = Ok "Dress comfortably and confidently!"
  <-> b1 = false /\ b3 = false /\ b2 = false /\ b4 = false.
Proof.
  destruct b1, b2, b3, b4; vm_compute; intuition discriminate.
Qed.

(** X1. The tips are the fallback sentence exactly when none of the four
    rules fires: the temperature is neither below 65 nor above 75, the
    condition is neither Rain nor Drizzle, and the mood is not
    professional.  (Stated with the two comparisons the code makes, which
    is how the code treats every number.) *)
Theorem style_tips_fallback_iff (t : Q) (c m : json) :
  generate_style_tips (JNum t) c m = Ok "Dress comfortably and confidently!"
  <-> (~ (t < 65)%Q /\ ~ (75 < t)%Q
       /\ (c <> JStr "Rain" /\ c <> JStr "Drizzle")
       /\ m <> JStr "professional").
Proof.
  rewrite generate_style_tips_num, tips_text_fallback.
  rewrite <- (Qlt_bool_iff t 65), <- (Qlt_bool_iff 75 t).
  rewrite !not_true_iff_false.
  rewrite py_eq_str_false, py_in_rain_drizzle_false.
  reflexivity.
Qed.

(** X2. The layering tip and the breathable-materials tip never occur in
    the same answer, and an answer holds the layering tip exactly below 65
    degrees and the breathable-materials tip exactly above 75 degrees. *)
Theorem style_tips_layer_breathable (t : Q) (c m : json) :
  exists s,
    generate_style_tips (JNum t) c m = Ok s
    /\ (substring_in "Layer your clothing for temperature flexibility" s = true
        <-> (t < 65)%Q)
    /\ (substring_in "Opt for breathable, moisture-wicking materials" s = true
        <-> (75 < t)%Q)
    /\ (substring_in "Layer your clothing for temperature flexibility" s
        && substring_in "Opt for breathable, moisture-wicking materials" s
        = false).
Proof.
  rewrite generate_style_tips_num. eexists. split; [reflexivity |].
  rewrite <- (Qlt_bool_iff t 65), <- (Qlt_bool_iff 75 t).
  assert (Hex : Qlt_bool t 65 = true -> Qlt_bool 75 t = true -> False).
  { rewrite !Qlt_bool_iff. intros H1 H2.
    apply (Qlt_irrefl t). apply Qlt_trans with 65%Q; [exact H1 |].
    apply Qlt_trans with 75%Q; [reflexivity | exact H2]. }
  destruct (Qlt_bool t 65), (Qlt_bool 75 t);
    try (exfalso; apply Hex; reflexivity);
    destruct (py_in_strs c ["Rain"; "Drizzle"]),
      (py_eq_str m "professional");
    vm_compute; intuition discriminate.
Qed.

(** X3. The water-resistant-fabrics tip is given for Rain and Drizzle
    only: a Thunderstorm, which does get the waterproof outerwear and
    footwear, gets no such tip. *)
Theorem style_tips_water_resistant (t : Q) (c m : json) :
  exists s,
    generate_style_tips (JNum t) c m = Ok s
    /\ (substring_in "Choose water-resistant fabrics" s = true
        <-> c = JStr "Rain" \/ c = JStr "Drizzle")
    /\ (c = JStr "Thunderstorm" ->
        substring_in "Choose water-resistant fabrics" s = false
        /\ outerwear (condition_adjustments c initial_outfit)
           = "Waterproof jacket or raincoat").
Proof.
  rewrite generate_style_tips_num. eexists. split; [reflexivity |].
  split.
  - rewrite <- py_in_rain_drizzle_true.
    destruct (Qlt_bool t 65), (Qlt_bool 75 t),
      (py_in_strs c ["Rain"; "Drizzle"]), (py_eq_str m "professional");
      vm_compute; intuition discriminate.
  - intros ->. split; [| reflexivity].
    change (py_in_strs (JStr "Thunderstorm") ["Rain"; "Drizzle"]) with false.
    destruct (Qlt_bool t 65), (Qlt_bool 75 t), (py_eq_str m "professional");
      reflexivity.
Qed.

(** ** The recommender: errors, and what each pass can touch *)

(** Every answer of the recommender comes from one reading of the weather
    document and the three passes in order. *)
Lemma get_outfit_recommendation_inv (wd : json) (p : dict) (r : Recommendation) :
  get_outfit_recommendation wd p = Ok r ->
  exists temp c base,
    reads_weather wd temp c
    /\ temperature_based temp initial_outfit = Ok base
    /\ outfit r = mood_adjustments (mood_of p) (condition_adjustments c base)
    /\ table_get color_palettes (color_of p) neutral_palette
       = Ok (color_palette r)
    /\ generate_style_tips temp c (mood_of p) = Ok (style_tips r).
Proof.
  unfold get_outfit_recommendation, reads_weather.
  fold (color_of p). fold (mood_of p).
  destruct (getitem wd "main") as [main |]; [| discriminate].
  cbn [ResultMonad.bind].
  destruct (getitem main "temp") as [temp |] eqn:Etemp; [| discriminate].
  cbn [ResultMonad.bind].
  destruct (getitem wd "weather") as [w |]; [| discriminate].
  cbn [ResultMonad.bind].
  destruct (getitem0 w) as [w0 |]; [| discriminate].
  cbn [ResultMonad.bind].
  destruct (getitem w0 "main") as [c |] eqn:Ec; [| discriminate].
  cbn [ResultMonad.bind].
  destruct (temperature_based temp initial_outfit) as [base |] eqn:Ebase;
    [| discriminate].
  cbn [ResultMonad.bind].
  change (subscript color_palettes "neutral") with (Ok neutral_palette).
  cbn [ResultMonad.bind].
  destruct (table_get color_palettes (color_of p) neutral_palette) as [pal |]
    eqn:Epal; [| discriminate].
  cbn [ResultMonad.bind].
  destruct (generate_style_tips temp c (mood_of p)) as [tips |] eqn:Etips;
    [| discriminate].
  cbn [ResultMonad.bind].
  intros H. exists temp, c, base.
  assert (E : r = mkRecommendation
                    (mood_adjustments (mood_of p) (condition_adjustments c base))
                    pal tips) by congruence.
  rewrite E. cbn [outfit color_palette style_tips].
  repeat split; assumption || reflexivity.
Qed.

Lemma reads_weather_functional (wd t1 c1 t2 c2 : json) :
  reads_weather wd t1 c1 -> reads_weather wd t2 c2 -> t1 = t2 /\ c1 = c2.
Proof. intros [H1 H2] [H3 H4]. split; congruence. Qed.

Lemma condition_adjustments_top_bottom (c : json) (o : Outfit) :
  top (condition_adjustments c o) = top o
  /\ bottom (condition_adjustments c o) = bottom o.
Proof.
  unfold condition_adjustments.
  destruct (py_in_strs c _); [split; reflexivity |].
  destruct (py_eq_str c "Snow"); split; reflexivity.
Qed.

Lemma mood_adjustments_top_bottom (m : json) (o1 o2 : Outfit) :
  top o1 = top o2 -> bottom o1 = bottom o2 ->
  top (mood_adjustments m o1) = top (mood_adjustments m o2)
  /\ bottom (mood_adjustments m o1) = bottom (mood_adjustments m o2).
Proof.
  intros Ht Hb. unfold mood_adjustments.
  destruct (py_eq_str m "professional"); [cbn; rewrite Ht; split; reflexivity |].
  destruct (py_eq_str m "adventurous"); [cbn; split; assumption |].
  destruct (py_eq_str m "cozy"); cbn; split; (reflexivity || assumption).
Qed.

(** X4. A weather document whose temperature is not a number (a string,
    null, a list, an object) makes the recommender raise TypeError at the
    first comparison, whatever the preferences are. *)
Theorem recommendation_non_numeric_temperature (wd temp c : json) (p : dict) :
  reads_weather wd temp c ->
  as_number temp = None ->
  get_outfit_recommendation wd p = Raise TypeError.
Proof.
  intros Hr Hn. rewrite (get_outfit_recommendation_reads _ _ _ _ Hr).
  unfold temperature_based, py_lt. rewrite Hn. reflexivity.
Qed.

Lemma recommendation_non_numeric_temperature_witness :
  get_outfit_recommendation (weather_of (JStr "71.3") (JStr "Clear")) []
  = Raise TypeError.
Proof.
  apply (recommendation_non_numeric_temperature _ (JStr "71.3") (JStr "Clear")).
  - apply reads_weather_of.
  - reflexivity.
Defined.

Lemma recommendation_unhashable_color_aux (wd c : json) (p : dict) (t : Q) :
  reads_weather wd (JNum t) c ->
  hashable (color_of p) = false ->
  get_outfit_recommendation wd p = Raise TypeError.
Proof.
  intros Hr Hh. rewrite (get_outfit_recommendation_reads _ _ _ _ Hr).
  destruct (in_band_total t) as [k Hk].
  rewrite (temperature_based_band _ _ _ Hk). cbn [ResultMonad.bind].
  destruct (color_of p); try discriminate Hh; reflexivity.
Qed.

(** X5. A colour preference that is a list or an object cannot be looked
    up in the palette table: with a numeric temperature the recommender
    raises TypeError instead of falling back to the neutral palette. *)
Theorem recommendation_unhashable_color (wd c : json) (p : dict) (t : Q) :
  reads_weather wd (JNum t) c ->
  hashable (color_of p) = false ->
  get_outfit_recommendation wd p = Raise TypeError.
Proof. apply recommendation_unhashable_color_aux. Qed.

Lemma recommendation_unhashable_color_witness :
  get_outfit_recommendation (weather_of (JNum 70) (JStr "Clear"))
    (prefs_of (JStr "casual") (JStr "casual") (JArr [JStr "warm"]))
  = Raise TypeError.
Proof.
  apply (recommendation_unhashable_color _ (JStr "Clear") _ 70).
  - apply reads_weather_of.
  - reflexivity.
Defined.

(** X6. The accessories of every answer start with the accessories of the
    temperature tier, unchanged and in order; the condition pass and the
    mood pass only append, at most four items together, so the list is
    never empty and never longer than seven. *)
Theorem accessories_extend_tier (wd c : json) (p : dict) (t : Q) (k : tier)
    (r : Recommendation) :
  reads_weather wd (JNum t) c ->
  in_band t k ->
  get_outfit_recommendation wd p = Ok r ->
  exists extra,
    accessories (outfit r) = accessories (tier_outfit k) ++ extra
    /\ (length extra <= 4)%nat
    /\ (1 <= length (accessories (outfit r)) <= 7)%nat.
Proof.
  intros Hr Hk H.
  rewrite (get_outfit_recommendation_outfit _ _ _ _ _ _ Hr Hk H).
  unfold mood_adjustments, condition_adjustments.
  destruct (py_in_strs c ["Rain"; "Drizzle"; "Thunderstorm"]),
    (py_eq_str c "Snow"), (py_eq_str (mood_of p) "professional"),
    (py_eq_str (mood_of p) "adventurous"), (py_eq_str (mood_of p) "cozy");
    cbn [accessories with_outerwear with_footwear with_top with_bottom
         append_accessory extend_accessories with_accessories
         top bottom outerwear footwear];
    rewrite <- ?app_assoc;
    (eexists; split; [reflexivity || (rewrite app_nil_r; reflexivity) |]);
    destruct k; cbn; lia.
Qed.

Lemma accessories_extend_tier_witness :
  exists r extra,
    get_outfit_recommendation (weather_of (JNum 20) (JStr "Snow"))
      (prefs_of (JStr "adventurous") (JStr "casual") (JStr "cool")) = Ok r
    /\ accessories (outfit r) = ["Scarf"; "Gloves"; "Beanie"] ++ extra
    /\ (length extra <= 4)%nat.
Proof.
  eexists.
  destruct (accessories_extend_tier
              (weather_of (JNum 20) (JStr "Snow")) (JStr "Snow")
              (prefs_of (JStr "adventurous") (JStr "casual") (JStr "cool"))
              20 Cold _ (reads_weather_of _ _) eq_refl eq_refl)
    as (extra & Hacc & Hlen & _).
  exists extra. split; [reflexivity |]. split; assumption.
Defined.

(** X7. The outerwear depends on the weather document only: two requests
    for the same weather get the same outerwear whatever their moods and
    other preferences are, since no mood rule assigns outerwear. *)
Theorem outerwear_independent_of_preferences (wd : json) (p1 p2 : dict)
    (r1 r2 : Recommendation) :
  get_outfit_recommendation wd p1 = Ok r1 ->
  get_outfit_recommendation wd p2 = Ok r2 ->
  outerwear (outfit r1) = outerwear (outfit r2).
Proof.
  intros H1 H2.
  destruct (get_outfit_recommendation_inv _ _ _ H1)
    as (t1 & c1 & b1 & Hr1 & Hb1 & Ho1 & _).
  destruct (get_outfit_recommendation_inv _ _ _ H2)
    as (t2 & c2 & b2 & Hr2 & Hb2 & Ho2 & _).
  destruct (reads_weather_functional _ _ _ _ _ Hr1 Hr2) as [<- <-].
  rewrite Hb1 in Hb2. assert (b1 = b2) by congruence. subst b2.
  rewrite Ho1, Ho2, !mood_adjustments_outerwear. reflexivity.
Qed.

Lemma outerwear_independent_of_preferences_witness :
  exists r1 r2,
    get_outfit_recommendation (weather_of (JNum 40) (JStr "Rain"))
      (prefs_of (JStr "professional") (JStr "a") (JStr "warm")) = Ok r1
    /\ get_outfit_recommendation (weather_of (JNum 40) (JStr "Rain"))
         (prefs_of (JStr "cozy") (JStr "b") (JNum 7)) = Ok r2
    /\ outerwear (outfit r1) = outerwear (outfit r2).
Proof.
  eexists; eexists. split; [reflexivity |]. split; [reflexivity |].
  apply (outerwear_independent_of_preferences
           (weather_of (JNum 40) (JStr "Rain"))
           (prefs_of (JStr "professional") (JStr "a") (JStr "warm"))
           (prefs_of (JStr "cozy") (JStr "b") (JNum 7)));
    reflexivity.
Defined.

(** X8. The weather condition never changes top or bottom: two weather
    documents with the same temperature get, for the same preferences, the
    same top and the same bottom whatever their conditions are. *)
Theorem top_bottom_independent_of_condition (wd1 wd2 temp c1 c2 : json)
    (p : dict) (r1 r2 : Recommendation) :
  reads_weather wd1 temp c1 ->
  reads_weather wd2 temp c2 ->
  get_outfit_recommendation wd1 p = Ok r1 ->
  get_outfit_recommendation wd2 p = Ok r2 ->
  top (outfit r1) = top (outfit r2) /\ bottom (outfit r1) = bottom (outfit r2).
Proof.
  intros Hw1 Hw2 H1 H2.
  destruct (get_outfit_recommendation_inv _ _ _ H1)
    as (t1 & d1 & b1 & Hr1 & Hb1 & Ho1 & _).
  destruct (get_outfit_recommendation_inv _ _ _ H2)
    as (t2 & d2 & b2 & Hr2 & Hb2 & Ho2 & _).
  destruct (reads_weather_functional _ _ _ _ _ Hw1 Hr1) as [<- <-].
  destruct (reads_weather_functional _ _ _ _ _ Hw2 Hr2) as [<- <-].
  rewrite Hb1 in Hb2. assert (b1 = b2) by congruence. subst b2.
  rewrite Ho1, Ho2.
  destruct (condition_adjustments_top_bottom c1 b1) as [Ht1 Hbo1].
  destruct (condition_adjustments_top_bottom c2 b1) as [Ht2 Hbo2].
  apply mood_adjustments_top_bottom; congruence.
Qed.

Lemma top_bottom_independent_of_condition_witness :
  exists r1 r2,
    get_outfit_recommendation (weather_of (JNum 80) (JStr "Snow"))
      (prefs_of (JStr "professional") (JStr "a") (JStr "warm")) = Ok r1
    /\ get_outfit_recommendation (weather_of (JNum 80) (JStr "Clear"))
         (prefs_of (JStr "professional") (JStr "a") (JStr "warm")) = Ok r2
    /\ top (outfit r1) = top (outfit r2)
    /\ bottom (outfit r1) = bottom (outfit r2).
Proof.
  eexists; eexists. split; [reflexivity |]. split; [reflexivity |].
  apply (top_bottom_independent_of_condition
           (weather_of (JNum 80) (JStr "Snow"))
           (weather_of (JNum 80) (JStr "Clear"))
           (JNum 80) (JStr "Snow") (JStr "Clear")
           (prefs_of (JStr "professional") (JStr "a") (JStr "warm")));
    try apply reads_weather_of; reflexivity.
Defined.

(** X9. With the professional mood the top of the answer never mentions a
    t-shirt, in either spelling, at any temperature and under any
    condition: the two textual replacements remove every occurrence that a
    tier can put there; and the bottom is the dress bottom. *)
Theorem professional_top_has_no_tshirt (wd c : json) (p : dict) (t : Q)
    (r : Recommendation) :
  reads_weather wd (JNum t) c ->
  mood_of p = JStr "professional" ->
  get_outfit_recommendation wd p = Ok r ->
  substring_in "t-shirt" (top (outfit r)) = false
  /\ substring_in "T-shirt" (top (outfit r)) = false
  /\ bottom (outfit r) = "Dress pants or skirt".
Proof.
  intros Hr Hm H.
  destruct (in_band_total t) as [k Hk].
  rewrite (get_outfit_recommendation_outfit _ _ _ _ _ _ Hr Hk H), Hm.
  destruct (condition_adjustments_top_bottom c (tier_outfit k)) as [Ht _].
  change (top (mood_adjustments (JStr "professional")
                 (condition_adjustments c (tier_outfit k))))
    with (replace "T-shirt" "Button-down shirt"
            (replace "t-shirt" "dress shirt"
               (top (condition_adjustments c (tier_outfit k))))).
  rewrite Ht.
  split; [| split]; [| | reflexivity]; destruct k; vm_compute; reflexivity.
Qed.

Lemma professional_top_has_no_tshirt_witness :
  exists r,
    get_outfit_recommendation (weather_of (JNum 70) (JStr "Clear"))
      (prefs_of (JStr "professional") (JStr "a") (JStr "warm")) = Ok r
    /\ top (outfit r) = "Button-down shirt or button-down shirt"
    /\ substring_in "T-shirt" (top (outfit r)) = false.
Proof.
  eexists. split; [reflexivity |]. split; [reflexivity |].
  apply (professional_top_has_no_tshirt
           (weather_of (JNum 70) (JStr "Clear")) (JStr "Clear")
           (prefs_of (JStr "professional") (JStr "a") (JStr "warm")) 70);
    try apply reads_weather_of; reflexivity.
Defined.

(** ** The image adapter: what it sends and what it returns *)

Lemma dict_set_keys {V : Type} (k key : string) (v : V) (d : list (string * V)) :
  In k (map fst (dict_set key v d)) -> k = key \/ In k (map fst d).
Proof.
  induction d as [| [k' v'] d IH]; cbn [dict_set map fst In].
  - intros [H | []]. left. symmetry. exact H.
  - destruct (String.eqb key k') eqn:E; cbn [map fst In].
    + intros H. right. exact H.
    + intros [H | H]; [right; left; exact H |].
      destruct (IH H) as [H' | H']; [left; exact H' | right; right; exact H'].
Qed.

Lemma dict_set_length {V : Type} (key : string) (v : V) (d : list (string * V)) :
  (length (dict_set key v d) <= S (length d))%nat.
Proof.
  induction d as [| [k' v'] d IH]; cbn [dict_set length]; [lia |].
  destruct (String.eqb key k'); cbn [length]; lia.
Qed.

Section AdapterRequests.

Variable cfg : Config.
Variable world : World.

(** With the key set, one call of the adapter sends exactly one request,
    whatever the answer is. *)
Lemma search_unsplash_image_requests (q orient : string) (log : list event) :
  exists image ext,
    search_unsplash_image cfg world q orient log = (Ok image, log ++ ext)
    /\ photo_requests ext
       = if key_unset (UNSPLASH_ACCESS_KEY cfg) then []
         else [photo_params q orient].
Proof.
  unfold search_unsplash_image.
  destruct (key_unset (UNSPLASH_ACCESS_KEY cfg)).
  { exists None, []. rewrite app_nil_r. split; reflexivity. }
  unfold IOMonad.try_except, search_unsplash_image_try, IOMonad.bind,
    IOMonad.history, IOMonad.emit, IOMonad.lift, IOMonad.ret.
  fold (photo_params q orient).
  destruct (photo_service world log _ _) as [e | status_code json_].
  { exists None, [Call_photo_service (photo_params q orient); Call_print e].
    rewrite <- app_assoc. split; reflexivity. }
  destruct (status_code =? 200)%Z.
  2: { eexists None, [_]. split; reflexivity. }
  destruct json_ as [data | e].
  2: { eexists None, [_; Call_print e].
       rewrite <- app_assoc. split; reflexivity. }
  destruct (getitem data "results") as [results | e].
  2: { eexists None, [_; Call_print e].
       rewrite <- app_assoc. split; reflexivity. }
  destruct (truthy results).
  2: { eexists None, [_]. split; reflexivity. }
  match goal with
  | |- context [match ?res with Ok _ => _ | Raise _ => _ end] =>
      destruct res as [image | e]
  end.
  - eexists image, [_]. split; reflexivity.
  - eexists None, [_; Call_print e].
    rewrite <- app_assoc. split; reflexivity.
Qed.

Lemma collect_images_requests (items : list (string * option string)) :
  forall images log,
  exists images' ext,
    collect_images cfg world items images log = (Ok images', log ++ ext)
    /\ photo_requests ext
       = (if key_unset (UNSPLASH_ACCESS_KEY cfg) then []
          else map (fun kq => photo_params (snd kq) "portrait")
                 (scheduled items))
    /\ (forall k, In k (map fst images') ->
                  In k (map fst images) \/ In k (map fst (scheduled items)))
    /\ (length images' <= length images + length (scheduled items))%nat.
Proof.
  induction items as [| [key q] rest IH]; intros images log.
  { exists images, []. rewrite app_nil_r.
    destruct (key_unset _); repeat split; try reflexivity;
      [intros k H; left; exact H | cbn; lia
      | intros k H; left; exact H | cbn; lia]. }
  cbn [collect_images scheduled].
  destruct q as [q |]; [| apply IH].
  destruct (negb (String.eqb q "")); [| apply IH].
  unfold IOMonad.bind at 1, IOMonad.emit.
  unfold IOMonad.bind at 1.
  destruct (search_unsplash_image_requests q "portrait"
              (log ++ [Call_search_unsplash_image key q]))
    as (image & ext1 & Hs & Hp1).
  rewrite Hs.
  assert (Hgo : forall images0,
             (forall k, In k (map fst images0) ->
                        k = key \/ In k (map fst images)) ->
             (length images0 <= S (length images))%nat ->
             exists images' ext,
               collect_images cfg world rest images0
                 ((log ++ [Call_search_unsplash_image key q]) ++ ext1)
               = (Ok images', log ++ ext)
               /\ photo_requests ext
                  = (if key_unset (UNSPLASH_ACCESS_KEY cfg) then []
                     else map (fun kq => photo_params (snd kq) "portrait")
                            ((key, q) :: scheduled rest))
               /\ (forall k, In k (map fst images') ->
                             In k (map fst images)
                             \/ In k (map fst ((key, q) :: scheduled rest)))
               /\ (length images'
                   <= length images + length ((key, q) :: scheduled rest))%nat).
  { intros images0 Hkeys Hlen.
    destruct (IH images0 ((log ++ [Call_search_unsplash_image key q]) ++ ext1))
      as (images' & ext2 & Hrest & Hp2 & Hk2 & Hl2).
    exists images', ([Call_search_unsplash_image key q] ++ ext1 ++ ext2).
    rewrite Hrest, <- !app_assoc. split; [reflexivity |].
    split; [| split].
    - rewrite !photo_requests_app, Hp1, Hp2.
      destruct (key_unset (UNSPLASH_ACCESS_KEY cfg)); reflexivity.
    - intros k Hk. cbn [map fst In].
      destruct (Hk2 k Hk) as [H | H]; [| right; right; exact H].
      destruct (Hkeys k H) as [-> | H']; [right; left; reflexivity | left; exact H'].
    - cbn [length]. lia. }
  destruct image as [img |].
  - apply Hgo.
    + intros k Hk. apply dict_set_keys in Hk. exact Hk.
    + apply dict_set_length.
  - apply Hgo.
    + intros k Hk. right. exact Hk.
    + lia.
Qed.

End AdapterRequests.

(** X10. With the access key set, when the photo service answers 200 with
    a non-empty result list whose first entry has the four fields, the
    adapter returns the record of exactly these four values, after one
    request and without printing anything. *)
Theorem search_unsplash_image_found (cfg : Config) (world : World)
    (q orient key : string) (log : list event)
    (data first urls user links regular small name html : json)
    (others : list json) :
  UNSPLASH_ACCESS_KEY cfg = Some key ->
  key <> "" ->
  photo_service world log (photo_params q orient) key
    = Http_response 200 (Ok data) ->
  getitem data "results" = Ok (JArr (first :: others)) ->
  getitem first "urls" = Ok urls ->
  getitem urls "regular" = Ok regular ->
  getitem urls "small" = Ok small ->
  getitem first "user" = Ok user ->
  getitem user "name" = Ok name ->
  getitem user "links" = Ok links ->
  getitem links "html" = Ok html ->
  search_unsplash_image cfg world q orient log
  = (Ok (Some (mkImage regular small name html)),
     log ++ [Call_photo_service (photo_params q orient)]).
Proof.
  intros Hkey Hne Hans Hres Hurls Hreg Hsmall Huser Hname Hlinks Hhtml.
  unfold search_unsplash_image. rewrite Hkey. cbn [key_unset].
  apply String.eqb_neq in Hne. rewrite Hne.
  unfold IOMonad.try_except, search_unsplash_image_try, IOMonad.bind,
    IOMonad.history, IOMonad.emit, IOMonad.lift, IOMonad.ret.
  rewrite Hkey. fold (photo_params q orient). rewrite Hans.
  cbn [Z.eqb Pos.eqb]. rewrite Hres. cbn [truthy getitem0 ResultMonad.bind].
  rewrite Hurls. cbn [ResultMonad.bind].
  rewrite Hreg. cbn [ResultMonad.bind].
  rewrite Hsmall. cbn [ResultMonad.bind].
  rewrite Huser. cbn [ResultMonad.bind].
  rewrite Hname. cbn [ResultMonad.bind].
  rewrite Hlinks. cbn [ResultMonad.bind].
  rewrite Hhtml. reflexivity.
Qed.

(** One photo of the search service's answer. *)
Definition sample_photo : json :=
  JObj [ ("urls", JObj [("regular", JStr "r.jpg"); ("small", JStr "s.jpg")]);
         ("user", JObj [("name", JStr "Ana");
                        ("links", JObj [("html", JStr "u/ana")])]) ].

Definition photo_world (answer : http_outcome) : World :=
  mkWorld (fun _ _ _ => Http_raise RequestException) (fun _ _ _ => answer).

Lemma search_unsplash_image_found_witness :
  search_unsplash_image (mkConfig None (Some "id"))
    (photo_world (Http_response 200 (Ok (JObj [("results", JArr [sample_photo])]))))
    "Boots fashion flatlay" "portrait" []
  = (Ok (Some (mkImage (JStr "r.jpg") (JStr "s.jpg") (JStr "Ana") (JStr "u/ana"))),
     [Call_photo_service (photo_params "Boots fashion flatlay" "portrait")]).
Proof.
  apply (search_unsplash_image_found (mkConfig None (Some "id")) _
           "Boots fashion flatlay" "portrait" "id" []
           (JObj [("results", JArr [sample_photo])]) sample_photo
           (JObj [("regular", JStr "r.jpg"); ("small", JStr "s.jpg")])
           (JObj [("name", JStr "Ana"); ("links", JObj [("html", JStr "u/ana")])])
           (JObj [("html", JStr "u/ana")]) _ _ _ _ []);
    reflexivity || discriminate.
Defined.

(** X11. The adapter never returns a partial record: whenever it returns
    an image, the key is set, the service answered 200 with a truthy
    ['results'], and all four fields were read from its first entry. *)
Theorem search_unsplash_image_complete (cfg : Config) (world : World)
    (q orient : string) (log : list event) (img : Image) :
  fst (search_unsplash_image cfg world q orient log) = Ok (Some img) ->
  key_unset (UNSPLASH_ACCESS_KEY cfg) = false
  /\ exists data results first urls user links,
       photo_answer cfg world q orient log = Http_response 200 (Ok data)
       /\ getitem data "results" = Ok results
       /\ truthy results = true
       /\ getitem0 results = Ok first
       /\ getitem first "urls" = Ok urls
       /\ getitem urls "regular" = Ok (url img)
       /\ getitem urls "small" = Ok (thumb img)
       /\ getitem first "user" = Ok user
       /\ getitem user "name" = Ok (photographer img)
       /\ getitem user "links" = Ok links
       /\ getitem links "html" = Ok (photographer_url img).
Proof.
  unfold search_unsplash_image, photo_answer, photo_params.
  destruct (key_unset (UNSPLASH_ACCESS_KEY cfg)); [discriminate |].
  unfold IOMonad.try_except, search_unsplash_image_try, IOMonad.bind,
    IOMonad.history, IOMonad.emit, IOMonad.lift, IOMonad.ret.
  destruct (photo_service world log _ _) as [e | status_code json_];
    [discriminate |].
  destruct (status_code =? 200)%Z eqn:Es; [| discriminate].
  apply Z.eqb_eq in Es. subst status_code.
  destruct json_ as [data | e]; [| discriminate].
  destruct (getitem data "results") as [results | e] eqn:Eres; [| discriminate].
  destruct (truthy results) eqn:Etr; [| discriminate].
  destruct (getitem0 results) as [first | e] eqn:E0; [| discriminate].
  cbn [ResultMonad.bind].
  destruct (getitem first "urls") as [urls | e] eqn:E1; [| discriminate].
  cbn [ResultMonad.bind].
  destruct (getitem urls "regular") as [regular | e] eqn:E2; [| discriminate].
  cbn [ResultMonad.bind].
  destruct (getitem urls "small") as [small | e] eqn:E3; [| discriminate].
  cbn [ResultMonad.bind].
  destruct (getitem first "user") as [user | e] eqn:E4; [| discriminate].
  cbn [ResultMonad.bind].
  destruct (getitem user "name") as [name | e] eqn:E5; [| discriminate].
  cbn [ResultMonad.bind].
  destruct (getitem user "links") as [links | e] eqn:E6; [| discriminate].
  cbn [ResultMonad.bind].
  destruct (getitem links "html") as [html | e] eqn:E7; [| discriminate].
  cbn [ResultMonad.bind fst].
  intros H. assert (E : img = mkImage regular small name html) by congruence.
  subst img. split; [reflexivity |].
  exists data, results, first, urls, user, links.
  cbn [url thumb photographer photographer_url].
  repeat split; assumption || reflexivity.
Qed.

Lemma search_unsplash_image_complete_witness :
  key_unset (Some "id") = false
  /\ exists data results first urls user links,
       Http_response 200 (Ok (JObj [("results", JArr [sample_photo])]))
       = Http_response 200 (Ok data)
       /\ getitem data "results" = Ok results
       /\ truthy results = true
       /\ getitem0 results = Ok first
       /\ getitem first "urls" = Ok urls
       /\ getitem urls "regular" = Ok (JStr "r.jpg")
       /\ getitem urls "small" = Ok (JStr "s.jpg")
       /\ getitem first "user" = Ok user
       /\ getitem user "name" = Ok (JStr "Ana")
       /\ getitem user "links" = Ok links
       /\ getitem links "html" = Ok (JStr "u/ana").
Proof.
  exact (search_unsplash_image_complete (mkConfig None (Some "id"))
           (photo_world
              (Http_response 200 (Ok (JObj [("results", JArr [sample_photo])]))))
           "Boots fashion flatlay" "portrait" []
           (mkImage (JStr "r.jpg") (JStr "s.jpg") (JStr "Ana") (JStr "u/ana"))
           eq_refl).
Defined.

(** X12. With the access key set, [get_outfit_images] sends the photo
    service one request for every scheduled query, in the order of
    [search_queries], each asking for one portrait result with the high
    content filter; it does so whatever the service answers, so a failed
    lookup never stops the ones after it.  An outfit gets four or five
    requests. *)
Theorem get_outfit_images_requests (cfg : Config) (world : World) (o : Outfit)
    (log : list event) :
  key_unset (UNSPLASH_ACCESS_KEY cfg) = false ->
  exists images ext,
    get_outfit_images cfg world o log = (Ok images, log ++ ext)
    /\ photo_requests ext
       = map (fun kq => mkSearchParams (snd kq) 1 "portrait" "high")
           (scheduled (search_queries o))
    /\ (4 <= length (photo_requests ext) <= 5)%nat.
Proof.
  intros Hk. unfold get_outfit_images.
  destruct (collect_images_requests cfg world (search_queries o) [] log)
    as (images & ext & Hrun & Hreq & _).
  rewrite Hk in Hreq. exists images, ext.
  split; [exact Hrun |]. split; [exact Hreq |].
  rewrite Hreq, length_map, scheduled_search_queries.
  destruct (negb (String.eqb (outerwear o) "")
            && negb (String.eqb (outerwear o) "None needed")); cbn; lia.
Qed.

Lemma get_outfit_images_requests_witness :
  exists images ext,
    get_outfit_images (mkConfig None (Some "id"))
      (photo_world (Http_response 500 (Raise ValueError)))
      (tier_outfit Warm) []
    = (Ok images, ext)
    /\ map query (photo_requests ext)
       = [ "Breathable t-shirt or polo fashion flatlay";
           "Shorts or light pants fashion flatlay";
           "Sandals or canvas shoes fashion flatlay";
           "complete outfit flatlay fashion minimal aesthetic" ].
Proof.
  destruct (get_outfit_images_requests (mkConfig None (Some "id"))
              (photo_world (Http_response 500 (Raise ValueError)))
              (tier_outfit Warm) [] eq_refl)
    as (images & ext & Hrun & Hreq & _).
  exists images, ext. split; [exact Hrun |]. rewrite Hreq. reflexivity.
Defined.

(** X13. The mapping [get_outfit_images] returns has at most five
    entries; each of its keys is the key of a scheduled query, so it is one
    of top, bottom, outerwear, footwear and outfit_complete, and there is no
    outerwear entry when the outerwear string is empty or "None needed". *)
Theorem get_outfit_images_keys (cfg : Config) (world : World) (o : Outfit)
    (log : list event) :
  exists images log',
    get_outfit_images cfg world o log = (Ok images, log')
    /\ (length images <= 5)%nat
    /\ (forall k, In k (map fst images) ->
          In k ["top"; "bottom"; "outerwear"; "footwear"; "outfit_complete"])
    /\ (outerwear o = "" \/ outerwear o = "None needed" ->
        ~ In "outerwear" (map fst images)).
Proof.
  unfold get_outfit_images.
  destruct (collect_images_requests cfg world (search_queries o) [] log)
    as (images & ext & Hrun & _ & Hkeys & Hlen).
  exists images, (log ++ ext). split; [exact Hrun |].
  rewrite scheduled_search_queries in Hkeys, Hlen.
  split; [| split].
  - destruct (negb (String.eqb (outerwear o) "")
              && negb (String.eqb (outerwear o) "None needed"));
      cbn in Hlen; lia.
  - intros k Hk. destruct (Hkeys k Hk) as [[] | H].
    destruct (negb (String.eqb (outerwear o) "")
              && negb (String.eqb (outerwear o) "None needed"));
      cbn in H; cbn; tauto.
  - intros Ho Hin. destruct (Hkeys _ Hin) as [[] | H].
    assert (E : negb (String.eqb (outerwear o) "")
                && negb (String.eqb (outerwear o) "None needed") = false)
      by (destruct Ho as [-> | ->]; reflexivity).
    rewrite E in H. cbn in H.
    destruct H as [H | [H | [H | [H | []]]]]; discriminate H.
Qed.

Lemma in_band_unique (t : Q) (j k : tier) : in_band t j -> in_band t k -> j = k.
Proof.
  intros Hj Hk. apply tier_outfit_inj.
  pose proof (temperature_based_band t j initial_outfit Hj) as H1.
  pose proof (temperature_based_band t k initial_outfit Hk) as H2.
  congruence.
Qed.

Lemma py_in_wet_false (c : json) :
  c <> JStr "Rain" -> c <> JStr "Drizzle" -> c <> JStr "Thunderstorm" ->
  py_in_strs c ["Rain"; "Drizzle"; "Thunderstorm"] = false.
Proof.
  intros H1 H2 H3. unfold py_in_strs. cbn [existsb].
  apply py_eq_str_false in H1, H2, H3. rewrite H1, H2, H3. reflexivity.
Qed.

(** X14. For the outfit of any answer of the recommender, the image
    adapter is called for top, bottom, outerwear, footwear and the complete
    outfit, in this order, except that the outerwear call is left out in
    exactly one situation: the warm tier (75 up to 85 degrees) under a
    condition that is none of Rain, Drizzle, Thunderstorm and Snow, where
    the outerwear is "None needed". *)
Theorem recommended_outfit_lookups (cfg : Config) (world : World)
    (wd c : json) (p : dict) (t : Q) (r : Recommendation) (log : list event) :
  reads_weather wd (JNum t) c ->
  get_outfit_recommendation wd p = Ok r ->
  exists images ext,
    get_outfit_images cfg world (outfit r) log = (Ok images, log ++ ext)
    /\ (in_band t Warm /\ c <> JStr "Rain" /\ c <> JStr "Drizzle"
        /\ c <> JStr "Thunderstorm" /\ c <> JStr "Snow" ->
        map fst (search_calls ext)
        = ["top"; "bottom"; "footwear"; "outfit_complete"])
    /\ (~ in_band t Warm \/ c = JStr "Rain" \/ c = JStr "Drizzle"
        \/ c = JStr "Thunderstorm" \/ c = JStr "Snow" ->
        map fst (search_calls ext)
        = ["top"; "bottom"; "outerwear"; "footwear"; "outfit_complete"]).
Proof.
  intros Hr H.
  destruct (in_band_total t) as [k Hk].
  pose proof (get_outfit_recommendation_outfit _ _ _ _ _ _ Hr Hk H) as Ho.
  destruct (get_outfit_images_returns cfg world (outfit r) log)
    as (images & ext & Hrun & Hcalls & _).
  exists images, ext. split; [exact Hrun |].
  rewrite Hcalls, scheduled_search_queries.
  rewrite Ho, mood_adjustments_outerwear.
  split.
  - intros (Hw & H1 & H2 & H3 & H4).
    rewrite (in_band_unique _ _ _ Hk Hw).
    unfold condition_adjustments.
    rewrite (py_in_wet_false _ H1 H2 H3).
    apply py_eq_str_false in H4. rewrite H4. reflexivity.
  - intros [Hn | Hc].
    + unfold condition_adjustments.
      destruct (py_in_strs c ["Rain"; "Drizzle"; "Thunderstorm"]);
        [reflexivity |].
      destruct (py_eq_str c "Snow"); [reflexivity |].
      destruct k; try reflexivity. contradiction.
    + destruct Hc as [-> | [-> | [-> | ->]]]; reflexivity.
Qed.

Lemma recommended_outfit_lookups_witness :
  exists r images ext,
    get_outfit_recommendation (weather_of (JNum 80) (JStr "Clouds"))
      (prefs_of (JStr "cozy") (JStr "a") (JStr "cool")) = Ok r
    /\ get_outfit_images (mkConfig None None)
         (photo_world (Http_raise OtherException)) (outfit r) []
       = (Ok images, ext)
    /\ map fst (search_calls ext)
       = ["top"; "bottom"; "footwear"; "outfit_complete"].
Proof.
  eexists.
  destruct (recommended_outfit_lookups (mkConfig None None)
              (photo_world (Http_raise OtherException))
              (weather_of (JNum 80) (JStr "Clouds")) (JStr "Clouds")
              (prefs_of (JStr "cozy") (JStr "a") (JStr "cool")) 80 _ []
              (reads_weather_of _ _) eq_refl)
    as (images & ext & Hrun & Hwarm & _).
  exists images, ext. split; [reflexivity |]. split; [exact Hrun |].
  apply Hwarm. repeat split; try discriminate; reflexivity.
Defined.

(** ** The request handler: every path *)

(** The reply of the [except] clauses, app.py:273-280. *)
Definition error_reply (e : exn) : reply :=
  if is_request_exception e
  then (Error_body "Failed to connect to weather service", 503%Z)
  else (Internal_error_body e, 500%Z).

(** The five ways a request can end, each with its call log. *)
Inductive outcome (cfg : Config) : reply -> list event -> Prop :=
  | Out_no_location :
      outcome cfg (Error_body "Location is required", 400%Z) []
  | Out_raised_early (e : exn) :
      outcome cfg (error_reply e) []
  | Out_weather_rejected (loc : json) :
      outcome cfg
        (Error_body "Unable to fetch weather data. Please check the location.",
         400%Z)
        [Call_weather_service loc (OPENWEATHER_API_KEY cfg)]
  | Out_weather_raised (loc : json) (e : exn) :
      outcome cfg (error_reply e)
        [Call_weather_service loc (OPENWEATHER_API_KEY cfg)]
  | Out_recommender_raised (loc : json) (e : exn) :
      outcome cfg (error_reply e)
        [Call_weather_service loc (OPENWEATHER_API_KEY cfg);
         Call_get_outfit_recommendation]
  | Out_success (loc : json) (r : Response) (ext : list event) :
      search_calls ext = scheduled (search_queries (resp_outfit r)) ->
      resp_location r = loc ->
      outcome cfg (Response_body r, 200%Z)
        ([Call_weather_service loc (OPENWEATHER_API_KEY cfg);
          Call_get_outfit_recommendation;
          Call_get_outfit_images] ++ ext).

Lemma outcome_raise (cfg : Config) (e : exn) (log : list event) :
  outcome cfg (error_reply e) log ->
  outcome cfg
    (fst (if is_request_exception e
          then ((Error_body "Failed to connect to weather service", 503%Z), log)
          else ((Internal_error_body e, 500%Z), log)))
    (snd (if is_request_exception e
          then ((Error_body "Failed to connect to weather service", 503%Z), log)
          else ((Internal_error_body e, 500%Z), log))).
Proof. unfold error_reply. destruct (is_request_exception e); exact (fun H => H). Qed.

Lemma outfit_recommendation_outcome (cfg : Config) (world : World)
    (request_json : result json) :
  outcome cfg (fst (outfit_recommendation cfg world request_json))
    (snd (outfit_recommendation cfg world request_json)).
Proof.
  unfold outfit_recommendation, outfit_recommendation_try,
    IOMonad.bind, IOMonad.lift, IOMonad.ret, IOMonad.history, IOMonad.emit.
  destruct request_json as [data | e]; [| apply outcome_raise; apply Out_raised_early].
  destruct (negb (truthy data)); [apply Out_no_location |].
  destruct (location_not_in data) as [missing | e];
    [| apply outcome_raise; apply Out_raised_early].
  destruct missing; [apply Out_no_location |].
  destruct (getitem data "location") as [loc | e];
    [| apply outcome_raise; apply Out_raised_early].
  destruct (py_get data "mood" (JStr "casual")) as [mood | e];
    [| apply outcome_raise; apply Out_raised_early].
  destruct (py_get data "style_preference" (JStr "casual")) as [style | e];
    [| apply outcome_raise; apply Out_raised_early].
  destruct (py_get data "color_preference" (JStr "neutral")) as [color | e];
    [| apply outcome_raise; apply Out_raised_early].
  cbn [app].
  destruct (weather_service world [] loc (OPENWEATHER_API_KEY cfg))
    as [e | status_code json_]; [apply outcome_raise; apply Out_weather_raised |].
  destruct (negb (status_code =? 200)%Z); [apply Out_weather_rejected |].
  destruct json_ as [wd | e]; [| apply outcome_raise; apply Out_weather_raised].
  destruct (weather_info_of wd) as [wi | e];
    [| apply outcome_raise; apply Out_weather_raised].
  cbn [app].
  destruct (get_outfit_recommendation wd _) as [rec | e];
    [| apply outcome_raise; apply Out_recommender_raised].
  cbn [app].
  destruct (get_outfit_images_returns cfg world (outfit rec)
              [ Call_weather_service loc (OPENWEATHER_API_KEY cfg);
                Call_get_outfit_recommendation; Call_get_outfit_images ])
    as (images & ext & Himg & Hcalls & _).
  rewrite Himg. cbn [fst snd].
  apply Out_success; [exact Hcalls | reflexivity].
Qed.

(** X15. Whatever the request, the configuration and the two services do,
    the handler replies, and the status is 200, 400, 500 or 503; the
    combined response is the body exactly of a 200, the message with the
    text of an exception exactly of a 500, and the "Failed to connect"
    message exactly of a 503. *)
Theorem handler_status_codes (cfg : Config) (world : World)
    (request_json : result json) :
  exists b s log,
    outfit_recommendation cfg world request_json = ((b, s), log)
    /\ (s = 200 \/ s = 400 \/ s = 500 \/ s = 503)%Z
    /\ ((exists r, b = Response_body r) <-> s = 200%Z)
    /\ ((exists e, b = Internal_error_body e) <-> s = 500%Z)
    /\ (b = Error_body "Failed to connect to weather service" <-> s = 503%Z).
Proof.
  pose proof (outfit_recommendation_outcome cfg world request_json) as H.
  destruct (outfit_recommendation cfg world request_json) as [[b s] log].
  exists b, s, log. split; [reflexivity |]. cbn [fst snd] in H.
  assert (Herr : forall e, error_reply e = (b, s) ->
            (s = 200 \/ s = 400 \/ s = 500 \/ s = 503)%Z
            /\ ((exists r, b = Response_body r) <-> s = 200%Z)
            /\ ((exists e, b = Internal_error_body e) <-> s = 500%Z)
            /\ (b = Error_body "Failed to connect to weather service"
                <-> s = 503%Z)).
  { intros e. unfold error_reply.
    destruct (is_request_exception e); intros [= <- <-];
      (split; [lia |]); repeat split;
      try (intros [x Hx]; discriminate Hx); try discriminate;
      try reflexivity; try (intros _; eexists; reflexivity). }
  inversion H; subst; try (eapply Herr; eassumption || (symmetry; eassumption));
    (split; [lia |]); repeat split;
    try (intros [x Hx]; discriminate Hx); try discriminate;
    try reflexivity; try (intros _; eexists; reflexivity).
Qed.

(** X16. The image adapter is used on the successful path only: in the
    call log of any request that is not answered 200 there is no adapter
    call and no request to the photo service, and the log has at most two
    entries.  In every log the first entry, if any, is the call of the
    weather service. *)
Theorem no_image_lookup_without_success (cfg : Config) (world : World)
    (request_json : result json) :
  exists b s log,
    outfit_recommendation cfg world request_json = ((b, s), log)
    /\ (s <> 200%Z ->
        search_calls log = [] /\ photo_requests log = []
        /\ (length log <= 2)%nat)
    /\ (forall ev rest, log = ev :: rest ->
          exists loc, ev = Call_weather_service loc (OPENWEATHER_API_KEY cfg)).
Proof.
  pose proof (outfit_recommendation_outcome cfg world request_json) as H.
  destruct (outfit_recommendation cfg world request_json) as [[b s] log].
  exists b, s, log. split; [reflexivity |]. cbn [fst snd] in H.
  inversion H; subst; split;
    try (intros _; repeat split; cbn; lia || reflexivity);
    try (intros ev rest [= <- <-]; eexists; reflexivity);
    try (intros ev rest Hnil; discriminate Hnil).
  intros Hs. contradiction Hs. reflexivity.
Qed.

(** ** The weather summary (app.py:247-253) *)

Lemma getitem_raise (v : json) (k : string) (e : exn) :
  getitem v k = Raise e -> is_request_exception e = false.
Proof.
  destruct v; cbn; try (intros [= <-]; reflexivity).
  destruct (dict_lookup k fields); [discriminate |].
  intros [= <-]. reflexivity.
Qed.

Lemma getitem0_raise (v : json) (e : exn) :
  getitem0 v = Raise e -> is_request_exception e = false.
Proof.
  destruct v as [| b | q | s | l | d]; cbn; try (intros [= <-]; reflexivity).
  - destruct s; [intros [= <-]; reflexivity | discriminate].
  - destruct l; [intros [= <-]; reflexivity | discriminate].
Qed.

Lemma py_round_raise (v : json) (e : exn) :
  py_round v = Raise e -> is_request_exception e = false.
Proof.
  unfold py_round. destruct (as_number v); [discriminate |].
  intros [= <-]. reflexivity.
Qed.

Lemma py_round_number (v : json) (z : Z) :
  py_round v = Ok z -> exists q, as_number v = Some q.
Proof.
  unfold py_round. destruct (as_number v) as [q |]; [| discriminate].
  intros _. exists q. reflexivity.
Qed.

Lemma weather_info_of_raise (wd : json) (e : exn) :
  weather_info_of wd = Raise e -> is_request_exception e = false.
Proof.
  unfold weather_info_of.
  repeat match goal with
         | |- context [ResultMonad.bind ?m _] =>
             let E := fresh "E" in
             destruct m eqn:E; cbn [ResultMonad.bind];
             [| intros [= <-];
                first [ exact (getitem_raise _ _ _ E)
                      | exact (getitem0_raise _ _ E)
                      | exact (py_round_raise _ _ E) ] ]
         end.
  discriminate.
Qed.

(** A document from which the summary can be built holds a numeric
    temperature and a condition where the recommender reads them. *)
Lemma weather_info_of_reads (wd : json) (wi : WeatherInfo) :
  weather_info_of wd = Ok wi ->
  exists temp c q, reads_weather wd temp c /\ as_number temp = Some q.
Proof.
  unfold weather_info_of, reads_weather.
  destruct (getitem wd "main") as [main |]; [| discriminate].
  cbn [ResultMonad.bind].
  destruct (getitem main "temp") as [temp |]; [| discriminate].
  cbn [ResultMonad.bind].
  destruct (py_round temp) as [z |] eqn:Ez; [| discriminate].
  cbn [ResultMonad.bind].
  destruct (getitem wd "weather") as [w |]; [| discriminate].
  cbn [ResultMonad.bind].
  destruct (getitem0 w) as [w0 |]; [| discriminate].
  cbn [ResultMonad.bind].
  destruct (getitem w0 "main") as [c |]; [| discriminate].
  intros _. destruct (py_round_number _ _ Ez) as [q Hq].
  exists temp, c, q. repeat split; assumption || reflexivity.
Qed.

Lemma py_lt_number (v : json) (q n : Q) :
  as_number v = Some q -> py_lt v n = py_lt (JNum q) n.
Proof. intros H. unfold py_lt. rewrite H. reflexivity. Qed.

Lemma py_gt_number (v : json) (q n : Q) :
  as_number v = Some q -> py_gt v n = py_gt (JNum q) n.
Proof. intros H. unfold py_gt. rewrite H. reflexivity. Qed.

Lemma recommendation_number (wd temp c : json) (q : Q) (p : dict) :
  reads_weather wd temp c ->
  as_number temp = Some q ->
  get_outfit_recommendation wd p
  = get_outfit_recommendation (weather_of (JNum q) c) p.
Proof.
  intros Hr Hq.
  rewrite (get_outfit_recommendation_reads _ _ _ _ Hr).
  rewrite (get_outfit_recommendation_reads _ _ _ _
             (reads_weather_of (JNum q) c)).
  unfold temperature_based, generate_style_tips.
  rewrite !(py_lt_number _ _ _ Hq), !(py_gt_number _ _ _ Hq). reflexivity.
Qed.

(** X20. Once the weather summary has been built from a document, the
    recommender can fail on that document for one reason only: it returns
    for every colour preference that can be a dict key, and raises
    TypeError for a list or an object. *)
Theorem recommender_after_summary (wd : json) (wi : WeatherInfo) (p : dict) :
  weather_info_of wd = Ok wi ->
  (hashable (color_of p) = true ->
   exists r, get_outfit_recommendation wd p = Ok r)
  /\ (hashable (color_of p) = false ->
      get_outfit_recommendation wd p = Raise TypeError).
Proof.
  intros Hwi.
  destruct (weather_info_of_reads _ _ Hwi) as (temp & c & q & Hr & Hq).
  rewrite (recommendation_number _ _ _ _ p Hr Hq).
  destruct (in_band_total q) as [k Hk].
  split; intros Hh.
  - destruct (get_outfit_recommendation_band _ _ p _ _
                (reads_weather_of (JNum q) c) Hh Hk) as (pal & tips & H).
    eexists. exact H.
  - rewrite (get_outfit_recommendation_reads _ _ _ _
               (reads_weather_of (JNum q) c)).
    rewrite (temperature_based_band _ _ _ Hk). cbn [ResultMonad.bind].
    destruct (color_of p); try discriminate Hh; reflexivity.
Qed.

Lemma recommender_after_summary_witness :
  (exists r,
      get_outfit_recommendation (sample_weather 70 "Clear")
        (prefs_of (JStr "casual") (JStr "casual") JNull) = Ok r)
  /\ get_outfit_recommendation (sample_weather 70 "Clear")
       (prefs_of (JStr "casual") (JStr "casual") (JObj [])) = Raise TypeError.
Proof.
  split.
  - apply (recommender_after_summary (sample_weather 70 "Clear")
             (mkWeatherInfo 70 (JStr "Clear") (JStr "Clear") (JNum 40) 2)
             (prefs_of (JStr "casual") (JStr "casual") JNull) eq_refl).
    reflexivity.
  - apply (recommender_after_summary (sample_weather 70 "Clear")
             (mkWeatherInfo 70 (JStr "Clear") (JStr "Clear") (JNum 40) 2)
             (prefs_of (JStr "casual") (JStr "casual") (JObj [])) eq_refl).
    reflexivity.
Defined.

Lemma round_half_even_bounds (q : Q) :
  (inject_Z (round_half_even q) - (1 # 2) <= q)%Q
  /\ (q <= inject_Z (round_half_even q) + (1 # 2))%Q.
Proof.
  destruct q as [n d].
  unfold Qle, Qminus, Qplus, Qopp, inject_Z, round_half_even.
  cbn [Qnum Qden].
  assert (Hd : (0 < Z.pos d)%Z) by reflexivity.
  pose proof (Z.div_mod n (Z.pos d) ltac:(lia)) as Hdm.
  pose proof (Z.mod_pos_bound n (Z.pos d) Hd) as Hm.
  set (f := (n / Z.pos d)%Z) in *. set (r := (n mod Z.pos d)%Z) in *.
  clearbody f r. subst n.
  change (Z.pos (1 * 2)) with 2%Z.
  destruct (Z.compare_spec (2 * r) (Z.pos d)) as [Ec | Ec | Ec].
  - destruct (Z.even f); cbn [Qnum Qden]; split; lia.
  - cbn [Qnum Qden]. split; lia.
  - cbn [Qnum Qden]. split; lia.
Qed.

Lemma round_half_even_integer (z : Z) (q : Q) :
  (q == inject_Z z)%Q -> round_half_even q = z.
Proof.
  destruct q as [n d]. unfold Qeq, inject_Z, round_half_even.
  cbn [Qnum Qden]. intros H. rewrite Z.mul_1_r in H. subst n.
  rewrite Z.div_mul, Z.mod_mul by discriminate.
  cbn. destruct (Z.even z); reflexivity.
Qed.

(** X21. The temperature shown in the response is an integer within half
    a degree of the temperature the weather service reported, and it is
    the reported temperature itself when that is a whole number. *)
Theorem displayed_temperature_is_nearest (wd c : json) (wi : WeatherInfo)
    (t : Q) :
  reads_weather wd (JNum t) c ->
  weather_info_of wd = Ok wi ->
  (inject_Z (temperature wi) - (1 # 2) <= t)%Q
  /\ (t <= inject_Z (temperature wi) + (1 # 2))%Q
  /\ (forall z, (t == inject_Z z)%Q -> temperature wi = z).
Proof.
  intros Hr Hwi. rewrite (weather_info_temperature _ _ _ _ Hr Hwi).
  destruct (round_half_even_bounds t) as [Hlo Hhi].
  split; [exact Hlo |]. split; [exact Hhi |].
  intros z. apply round_half_even_integer.
Qed.

Lemma displayed_temperature_is_nearest_witness :
  (inject_Z 72 - (1 # 2) <= 143 # 2)%Q
  /\ (143 # 2 <= inject_Z 72 + (1 # 2))%Q.
Proof.
  destruct (displayed_temperature_is_nearest
              (sample_weather (143 # 2) "Clear") (JStr "Clear")
              (mkWeatherInfo 72 (JStr "Clear") (JStr "Clear") (JNum 40) 2)
              (143 # 2) (conj eq_refl eq_refl) eq_refl)
    as (Hlo & Hhi & _).
  split; assumption.
Defined.

(** ** The request handler: failures and defaults *)

Lemma request_preferences_mood (d : dict) :
  mood_of (request_preferences d) = dict_get "mood" (JStr "casual") d.
Proof. reflexivity. Qed.

Lemma request_preferences_color (d : dict) :
  color_of (request_preferences d)
  = dict_get "color_preference" (JStr "neutral") d.
Proof. reflexivity. Qed.

(** What the summary needs of a weather document, field by field. *)
Definition field (v : json) (k : string) : option json :=
  match v with
  | JObj d => dict_lookup k d
  | _ => None
  end.

Definition first_entry (v : json) : option json :=
  match v with
  | JArr (x :: _) => Some x
  | _ => None
  end.

Definition is_number (v : json) : bool :=
  match v with
  | JNum _ | JBool _ => true
  | _ => false
  end.

(** The document is an object with ['main'] holding a numeric ['temp'] and
    a ['humidity'], ['weather'] a non-empty list whose first entry holds
    ['main'] and ['description'], and ['wind'] holding a numeric
    ['speed']. *)
Definition summary_complete (wd : json) : bool :=
  match field wd "main", field wd "weather", field wd "wind" with
  | Some main, Some weather, Some wind =>
      match field main "temp", field main "humidity",
            first_entry weather, field wind "speed" with
      | Some temp, Some _, Some weather0, Some speed =>
          match field weather0 "main", field weather0 "description" with
          | Some _, Some _ => is_number temp && is_number speed
          | _, _ => false
          end
      | _, _, _, _ => false
      end
  | _, _, _ => false
  end.

Lemma getitem_field (v : json) (k : string) :
  getitem v k = match field v k with
                | Some x => Ok x
                | None => Raise (match v with JObj _ => KeyError | _ => TypeError end)
                end.
Proof.
  destruct v; reflexivity.
Qed.

Lemma py_round_is_number (v : json) :
  py_round v
  = if is_number v
    then Ok (round_half_even
               (match as_number v with Some q => q | None => 0%Q end))
    else Raise TypeError.
Proof. destruct v as [| [|] | q | s | l | d]; reflexivity. Qed.

(** The summary is built exactly from the complete documents. *)
Lemma weather_info_of_complete (wd : json) :
  (exists wi, weather_info_of wd = Ok wi) <-> summary_complete wd = true.
Proof.
  unfold weather_info_of, summary_complete.
  repeat
    (progress
       (rewrite ?getitem_field, ?py_round_is_number;
        repeat match goal with
               | H : field ?a ?b = _ |- context [field ?a ?b] => rewrite H
               | H : is_number ?a = _ |- context [is_number ?a] => rewrite H
               end;
        cbn [ResultMonad.bind getitem0 first_entry andb];
        try match goal with
            | |- context [match field ?a ?b with _ => _ end] =>
                destruct (field a b) eqn:?
            | |- context [if is_number ?a then _ else _] =>
                destruct (is_number a) eqn:?
            | |- context [is_number ?a && _] =>
                destruct (is_number a) eqn:?
            | |- context [getitem0 ?w] =>
                destruct w as [| ? | ? | [| ? ?] | [| ? ?] | ?]
            | |- context [first_entry ?w] =>
                destruct w as [| ? | ? | [| ? ?] | [| ? ?] | ?]
            end));
    try match goal with
        | H : field (JStr _) _ = Some _ |- _ => discriminate H
        end;
    (split;
     [ intros [wi H]; first [discriminate H | reflexivity | assumption]
     | first [discriminate | intros _; eexists; reflexivity] ]).
Qed.

Section HandlerPaths.

Variable cfg : Config.
Variable world : World.

(** X17. When the weather service answers with any status other than 200
    the handler replies 400 with the "Unable to fetch weather data" message;
    the body of that answer is never read, and nothing else is called. *)
Theorem weather_rejected_gives_400 (d : dict) (loc : json) (status_code : Z)
    (json_ : result json) :
  dict_lookup "location" d = Some loc ->
  weather_service world [] loc (OPENWEATHER_API_KEY cfg)
    = Http_response status_code json_ ->
  status_code <> 200%Z ->
  outfit_recommendation cfg world (Ok (JObj d))
  = ((Error_body "Unable to fetch weather data. Please check the location.",
      400%Z),
     [Call_weather_service loc (OPENWEATHER_API_KEY cfg)]).
Proof.
  intros Hloc Hweather Hs.
  unfold outfit_recommendation, outfit_recommendation_try,
    IOMonad.bind, IOMonad.lift, IOMonad.ret, IOMonad.history, IOMonad.emit.
  destruct d as [| kv d']; [discriminate Hloc |].
  cbn [truthy negb location_not_in getitem py_get]. rewrite Hloc.
  rewrite Hweather. apply Z.eqb_neq in Hs. rewrite Hs. reflexivity.
Qed.

(** X18. When the call of the weather service raises, or its 200 answer
    has a body that [.json()] cannot decode, the reply is 503 "Failed to
    connect to weather service" if the exception is a RequestException and
    500 with the exception otherwise; nothing else is called. *)
Theorem weather_raised_gives_503_or_500 (d : dict) (loc : json) (e : exn) :
  dict_lookup "location" d = Some loc ->
  weather_service world [] loc (OPENWEATHER_API_KEY cfg) = Http_raise e
  \/ weather_service world [] loc (OPENWEATHER_API_KEY cfg)
     = Http_response 200 (Raise e) ->
  outfit_recommendation cfg world (Ok (JObj d))
  = (if is_request_exception e
     then (Error_body "Failed to connect to weather service", 503%Z)
     else (Internal_error_body e, 500%Z),
     [Call_weather_service loc (OPENWEATHER_API_KEY cfg)]).
Proof.
  intros Hloc Hweather.
  unfold outfit_recommendation, outfit_recommendation_try,
    IOMonad.bind, IOMonad.lift, IOMonad.ret, IOMonad.history, IOMonad.emit.
  destruct d as [| kv d']; [discriminate Hloc |].
  cbn [truthy negb location_not_in getitem py_get]. rewrite Hloc.
  destruct Hweather as [-> | ->]; cbn [Z.eqb Pos.eqb negb app];
    destruct (is_request_exception e); reflexivity.
Qed.

(** The handler reads the location and, with their defaults, the mood
    and the colour preference of the body, and nothing else. *)
Lemma outfit_recommendation_reads_only (d1 d2 : dict) :
  dict_lookup "location" d1 = dict_lookup "location" d2 ->
  dict_get "mood" (JStr "casual") d1 = dict_get "mood" (JStr "casual") d2 ->
  dict_get "color_preference" (JStr "neutral") d1
  = dict_get "color_preference" (JStr "neutral") d2 ->
  outfit_recommendation cfg world (Ok (JObj d1))
  = outfit_recommendation cfg world (Ok (JObj d2)).
Proof.
  intros Hloc Hmood Hcolor.
  destruct (dict_lookup "location" d2) as [loc |] eqn:Hloc2.
  2: { rewrite !outfit_recommendation_no_location by assumption. reflexivity. }
  unfold outfit_recommendation, outfit_recommendation_try,
    IOMonad.bind, IOMonad.lift, IOMonad.ret, IOMonad.history, IOMonad.emit.
  destruct d1 as [| kv1 d1']; [discriminate Hloc |].
  destruct d2 as [| kv2 d2']; [discriminate Hloc2 |].
  cbn [truthy negb location_not_in getitem py_get]. rewrite Hloc, Hloc2.
  destruct (weather_service world [] loc (OPENWEATHER_API_KEY cfg))
    as [e | status_code json_]; [reflexivity |].
  destruct (negb (status_code =? 200)%Z); [reflexivity |].
  destruct json_ as [wd | e]; [| reflexivity].
  destruct (weather_info_of wd) as [wi | e]; [| reflexivity].
  fold (request_preferences (kv1 :: d1')).
  fold (request_preferences (kv2 :: d2')).
  rewrite (get_outfit_recommendation_prefs wd
             (request_preferences (kv1 :: d1'))
             (request_preferences (kv2 :: d2'))).
  - reflexivity.
  - rewrite !request_preferences_mood. exact Hmood.
  - rewrite !request_preferences_color. exact Hcolor.
Qed.

(** X19. Two request bodies that agree on every key but [style_preference]
    get the same reply and cause the same calls: the style preference has
    no effect on anything the handler does. *)
Theorem handler_ignores_style_preference (d1 d2 : dict) :
  (forall k, k <> "style_preference" -> dict_lookup k d1 = dict_lookup k d2) ->
  outfit_recommendation cfg world (Ok (JObj d1))
  = outfit_recommendation cfg world (Ok (JObj d2)).
Proof.
  intros H. apply outfit_recommendation_reads_only.
  - apply H. discriminate.
  - unfold dict_get. rewrite (H "mood"); [reflexivity | discriminate].
  - unfold dict_get.
    rewrite (H "color_preference"); [reflexivity | discriminate].
Qed.

(** X22. A body with a location is handled like the body that holds just
    this location and the three preferences with the defaults filled in
    ("casual", "casual", "neutral"): leaving a preference out is the same
    as sending its default, and every other key of the body is ignored. *)
Theorem handler_fills_defaults (d : dict) (loc : json) :
  dict_lookup "location" d = Some loc ->
  outfit_recommendation cfg world (Ok (JObj d))
  = outfit_recommendation cfg world
      (Ok (JObj [ ("location", loc);
                  ("mood", dict_get "mood" (JStr "casual") d);
                  ("style_preference",
                    dict_get "style_preference" (JStr "casual") d);
                  ("color_preference",
                    dict_get "color_preference" (JStr "neutral") d) ])).
Proof.
  intros Hloc. apply outfit_recommendation_reads_only.
  - rewrite Hloc. reflexivity.
  - reflexivity.
  - reflexivity.
Qed.

(** X23. When the weather document lacks a field of the summary (the
    temperature, the humidity, the condition or the description of the
    first weather entry, the wind speed) or has a temperature or a wind
    speed that is not a number, the summary cannot be built: the reply is
    500 with the exception raised (never 503), and neither the recommender
    nor the image adapter is called. *)
Theorem broken_weather_document_gives_500 (d : dict) (loc wd : json) :
  dict_lookup "location" d = Some loc ->
  weather_service world [] loc (OPENWEATHER_API_KEY cfg)
    = Http_response 200 (Ok wd) ->
  summary_complete wd = false ->
  exists e,
    weather_info_of wd = Raise e
    /\ outfit_recommendation cfg world (Ok (JObj d))
       = ((Internal_error_body e, 500%Z),
          [Call_weather_service loc (OPENWEATHER_API_KEY cfg)]).
Proof.
  intros Hloc Hweather Hbroken.
  destruct (weather_info_of wd) as [wi | e] eqn:Hinfo.
  { pose proof (proj1 (weather_info_of_complete wd) (ex_intro _ wi Hinfo)) as H.
    rewrite H in Hbroken. discriminate Hbroken. }
  exists e. split; [reflexivity |].
  unfold outfit_recommendation, outfit_recommendation_try,
    IOMonad.bind, IOMonad.lift, IOMonad.ret, IOMonad.history, IOMonad.emit.
  destruct d as [| kv d']; [discriminate Hloc |].
  cbn [truthy negb location_not_in getitem py_get]. rewrite Hloc.
  rewrite Hweather. cbn [Z.eqb Pos.eqb negb app]. rewrite Hinfo.
  rewrite (weather_info_of_raise _ _ Hinfo). reflexivity.
Qed.

(** X24. A colour preference that is a JSON list or object makes an
    otherwise good request fail with 500 and TypeError: the weather service
    and the recommender have been called, the image adapter has not. *)
Theorem unhashable_color_gives_500 (d : dict) (loc wd : json) (wi : WeatherInfo) :
  dict_lookup "location" d = Some loc ->
  weather_service world [] loc (OPENWEATHER_API_KEY cfg)
    = Http_response 200 (Ok wd) ->
  weather_info_of wd = Ok wi ->
  hashable (dict_get "color_preference" (JStr "neutral") d) = false ->
  outfit_recommendation cfg world (Ok (JObj d))
  = ((Internal_error_body TypeError, 500%Z),
     [Call_weather_service loc (OPENWEATHER_API_KEY cfg);
      Call_get_outfit_recommendation]).
Proof.
  intros Hloc Hweather Hinfo Hcolor.
  assert (Hrec : get_outfit_recommendation wd (request_preferences d)
                 = Raise TypeError).
  { destruct (weather_info_of_reads _ _ Hinfo) as (temp & c & q & Hr & Hq).
    rewrite (recommendation_number _ _ _ _ _ Hr Hq).
    apply (recommendation_unhashable_color_aux _ c _ q);
      [apply reads_weather_of | exact Hcolor]. }
  unfold outfit_recommendation, outfit_recommendation_try,
    IOMonad.bind, IOMonad.lift, IOMonad.ret, IOMonad.history, IOMonad.emit.
  destruct d as [| kv d']; [discriminate Hloc |].
  cbn [truthy negb location_not_in getitem py_get]. rewrite Hloc.
  fold (request_preferences (kv :: d')).
  rewrite Hweather. cbn [Z.eqb Pos.eqb negb app]. rewrite Hinfo, Hrec.
  reflexivity.
Qed.

End HandlerPaths.

Lemma weather_rejected_gives_400_witness :
  outfit_recommendation (mkConfig (Some "w") (Some "u"))
    (mkWorld (fun _ _ _ => Http_response 404 (Raise ValueError))
       (fun _ _ _ => Http_raise OtherException))
    (Ok (JObj [("location", JStr "Atlantis")]))
  = ((Error_body "Unable to fetch weather data. Please check the location.",
      400%Z),
     [Call_weather_service (JStr "Atlantis") (Some "w")]).
Proof.
  apply (weather_rejected_gives_400 (mkConfig (Some "w") (Some "u")) _
           [("location", JStr "Atlantis")] (JStr "Atlantis") 404
           (Raise ValueError));
    reflexivity || discriminate.
Defined.

Lemma weather_raised_gives_503_or_500_witness :
  outfit_recommendation (mkConfig (Some "w") (Some "u"))
    (mkWorld (fun _ _ _ => Http_raise RequestException)
       (fun _ _ _ => Http_raise OtherException))
    (Ok (JObj [("location", JStr "Chicago")]))
  = ((Error_body "Failed to connect to weather service", 503%Z),
     [Call_weather_service (JStr "Chicago") (Some "w")]).
Proof.
  apply (weather_raised_gives_503_or_500 (mkConfig (Some "w") (Some "u"))
           (mkWorld (fun _ _ _ => Http_raise RequestException)
              (fun _ _ _ => Http_raise OtherException))
           [("location", JStr "Chicago")] (JStr "Chicago") RequestException).
  - reflexivity.
  - left. reflexivity.
Defined.

Lemma handler_ignores_style_preference_witness :
  outfit_recommendation (mkConfig (Some "w") None)
    (constant_world (sample_weather 58 "Drizzle"))
    (Ok (JObj [("location", JStr "Oslo"); ("style_preference", JStr "boho")]))
  = outfit_recommendation (mkConfig (Some "w") None)
      (constant_world (sample_weather 58 "Drizzle"))
      (Ok (JObj [("location", JStr "Oslo")])).
Proof.
  apply handler_ignores_style_preference.
  intros k Hk. cbn [dict_lookup].
  destruct (String.eqb k "location"); [reflexivity |].
  rewrite (string_eqb_neq_false _ _ Hk). reflexivity.
Defined.

Lemma handler_fills_defaults_witness :
  outfit_recommendation (mkConfig (Some "w") None)
    (constant_world (sample_weather 58 "Drizzle"))
    (Ok (JObj [("units", JStr "metric"); ("location", JStr "Oslo")]))
  = outfit_recommendation (mkConfig (Some "w") None)
      (constant_world (sample_weather 58 "Drizzle"))
      (Ok (JObj [ ("location", JStr "Oslo"); ("mood", JStr "casual");
                  ("style_preference", JStr "casual");
                  ("color_preference", JStr "neutral") ])).
Proof.
  apply (handler_fills_defaults (mkConfig (Some "w") None)
           (constant_world (sample_weather 58 "Drizzle"))
           [("units", JStr "metric"); ("location", JStr "Oslo")] (JStr "Oslo")).
  reflexivity.
Defined.

(** A weather document as the service sends it, without the description
    of the first weather entry. *)
Definition weather_without_description : json :=
  JObj [ ("weather", JArr [JObj [("main", JStr "Clear")]]);
         ("main", JObj [("temp", JNum 70); ("humidity", JNum 40)]);
         ("wind", JObj [("speed", JNum (5 # 2))]) ].

Lemma broken_weather_document_gives_500_witness :
  weather_info_of weather_without_description = Raise KeyError
  /\ outfit_recommendation (mkConfig (Some "w") (Some "u"))
       (constant_world weather_without_description)
       (Ok (JObj [("location", JStr "Oslo")]))
     = ((Internal_error_body KeyError, 500%Z),
        [Call_weather_service (JStr "Oslo") (Some "w")]).
Proof.
  destruct (broken_weather_document_gives_500 (mkConfig (Some "w") (Some "u"))
              (constant_world weather_without_description)
              [("location", JStr "Oslo")] (JStr "Oslo")
              weather_without_description eq_refl eq_refl eq_refl)
    as (e & Hinfo & Hreply).
  assert (He : e = KeyError) by (cbv in Hinfo; congruence).
  subst e. split; assumption.
Defined.

Lemma unhashable_color_gives_500_witness :
  outfit_recommendation (mkConfig (Some "w") (Some "u"))
    (constant_world (sample_weather 70 "Clear"))
    (Ok (JObj [("location", JStr "Oslo"); ("color_preference", JArr [])]))
  = ((Internal_error_body TypeError, 500%Z),
     [Call_weather_service (JStr "Oslo") (Some "w");
      Call_get_outfit_recommendation]).
Proof.
  apply (unhashable_color_gives_500 (mkConfig (Some "w") (Some "u"))
           (constant_world (sample_weather 70 "Clear"))
           [("location", JStr "Oslo"); ("color_preference", JArr [])]
           (JStr "Oslo") (sample_weather 70 "Clear")
           (mkWeatherInfo 70 (JStr "Clear") (JStr "Clear") (JNum 40) 2));
    reflexivity.
Defined.

(** ** Bodies that are not objects (app.py:215-223) *)

Lemma prefix_spec (p s : string) :
  String.prefix p s = true <-> exists b, s = (p ++ b)%string.
Proof.
  revert s. induction p as [| c p IH]; intros s.
  - destruct s; cbn; (split; [intros _; eexists; reflexivity | reflexivity]).
  - destruct s as [| c' s']; cbn.
    + split; [discriminate | intros [b H]; discriminate H].
    + destruct (Ascii.ascii_dec c c') as [<- | Hne].
      * rewrite IH. split; intros [b H]; exists b; congruence.
      * split; [discriminate | intros [b H]; congruence].
Qed.

Lemma substring_in_spec (needle s : string) :
  substring_in needle s = true
  <-> exists a b, s = (a ++ needle ++ b)%string.
Proof.
  induction s as [| c s IH].
  - cbn [substring_in]. rewrite orb_false_r, prefix_spec. split.
    + intros [b H]. exists "", b. exact H.
    + intros (a & b & H). destruct a as [| ? ?]; [| discriminate H].
      exists b. exact H.
  - cbn [substring_in]. rewrite orb_true_iff, prefix_spec, IH. split.
    + intros [[b H] | (a & b & H)].
      * exists "", b. exact H.
      * exists (String c a), b. cbn. rewrite H. reflexivity.
    + intros (a & b & H). destruct a as [| c' a'].
      * left. exists b. exact H.
      * right. exists a', b. cbn in H. congruence.
Qed.

Lemma existsb_location (l : list json) :
  existsb (fun x => py_eq_str x "location") l = true
  <-> In (JStr "location") l.
Proof.
  rewrite existsb_exists. split.
  - intros (x & Hin & Hx). apply py_eq_str_true in Hx. subst x. exact Hin.
  - intros Hin. exists (JStr "location"). split; [exact Hin | reflexivity].
Qed.

(** A list that holds the string "location", or a string that contains
    it: the bodies on which the membership test of app.py:218 finds
    "location" although they have no such key. *)
Definition mentions_location (data : json) : Prop :=
  match data with
  | JArr l => In (JStr "location") l
  | JStr s => exists a b, s = (a ++ "location" ++ b)%string
  | _ => False
  end.

(** The reply to a number, a string and a list, read off the handler. *)
Lemma outfit_recommendation_number (cfg : Config) (world : World) (q : Q) :
  outfit_recommendation cfg world (Ok (JNum q))
  = (if Qis_zero q
     then (Error_body "Location is required", 400%Z)
     else (Internal_error_body TypeError, 500%Z), []).
Proof.
  unfold outfit_recommendation, outfit_recommendation_try,
    IOMonad.bind, IOMonad.lift, IOMonad.ret.
  cbn [truthy location_not_in]. destruct (Qis_zero q); reflexivity.
Qed.

Lemma outfit_recommendation_string (cfg : Config) (world : World) (s : string) :
  outfit_recommendation cfg world (Ok (JStr s))
  = (if String.eqb s "" then (Error_body "Location is required", 400%Z)
     else if substring_in "location" s
          then (Internal_error_body TypeError, 500%Z)
          else (Error_body "Location is required", 400%Z), []).
Proof.
  unfold outfit_recommendation, outfit_recommendation_try,
    IOMonad.bind, IOMonad.lift, IOMonad.ret.
  cbn [truthy location_not_in]. destruct (String.eqb s ""); [reflexivity |].
  cbn [negb]. destruct (substring_in "location" s); reflexivity.
Qed.

Lemma outfit_recommendation_list (cfg : Config) (world : World) (l : list json) :
  outfit_recommendation cfg world (Ok (JArr l))
  = (match l with
     | [] => (Error_body "Location is required", 400%Z)
     | _ :: _ =>
         if existsb (fun x => py_eq_str x "location") l
         then (Internal_error_body TypeError, 500%Z)
         else (Error_body "Location is required", 400%Z)
     end, []).
Proof.
  unfold outfit_recommendation, outfit_recommendation_try,
    IOMonad.bind, IOMonad.lift, IOMonad.ret.
  cbn [truthy location_not_in]. destruct l as [| x l']; [reflexivity |].
  cbn [negb]. destruct (existsb _ (x :: l')); reflexivity.
Qed.

(** X25. A body that is not a JSON object is never served and no service
    is called for it.  A falsy body (null, false, 0, the empty string, the
    empty list) gets 400 "Location is required"; so does a list that does
    not hold the string "location" and a string that does not contain it.
    A list that holds "location" and a string that contains it pass the
    test and then fail at [data['location']] with TypeError, reply 500; a
    non-zero number and true fail in the test itself with TypeError, reply
    500. *)
Theorem non_object_body_is_rejected (cfg : Config) (world : World) (data : json) :
  (forall d, data <> JObj d) ->
  snd (outfit_recommendation cfg world (Ok data)) = []
  /\ (truthy data = false ->
      fst (outfit_recommendation cfg world (Ok data))
      = (Error_body "Location is required", 400%Z))
  /\ (truthy data = true ->
      (exists l, data = JArr l) \/ (exists s, data = JStr s) ->
      ~ mentions_location data ->
      fst (outfit_recommendation cfg world (Ok data))
      = (Error_body "Location is required", 400%Z))
  /\ (truthy data = true ->
      mentions_location data ->
      fst (outfit_recommendation cfg world (Ok data))
      = (Internal_error_body TypeError, 500%Z))
  /\ (truthy data = true ->
      (exists q, data = JNum q) \/ data = JBool true ->
      fst (outfit_recommendation cfg world (Ok data))
      = (Internal_error_body TypeError, 500%Z)).
Proof.
  intros Hobj.
  destruct data as [| b | q | s | l | d].
  - split; [reflexivity |]. split; [reflexivity |].
    split; [discriminate |]. split; discriminate.
  - destruct b.
    + split; [reflexivity |]. split; [discriminate |].
      split; [intros _ [[l H] | [s H]]; discriminate H |].
      split; [intros _ [] | reflexivity].
    + split; [reflexivity |]. split; [reflexivity |].
      split; [discriminate |]. split; discriminate.
  - rewrite (outfit_recommendation_number cfg world q).
    cbn [truthy]. destruct (Qis_zero q); cbn [negb fst snd].
    + split; [reflexivity |]. split; [reflexivity |].
      split; [discriminate |]. split; discriminate.
    + split; [reflexivity |]. split; [discriminate |].
      split; [intros _ [[l H] | [s H]]; discriminate H |].
      split; [intros _ [] | reflexivity].
  - rewrite (outfit_recommendation_string cfg world s).
    cbn [truthy mentions_location].
    pose proof (substring_in_spec "location" s) as Hsub.
    destruct (String.eqb s ""); cbn [negb fst snd].
    { split; [reflexivity |]. split; [reflexivity |].
      split; [discriminate |]. split; discriminate. }
    destruct (substring_in "location" s); cbn [fst snd].
    + split; [reflexivity |]. split; [discriminate |].
      split; [intros _ _ Hno; exfalso; apply Hno, Hsub; reflexivity |].
      split; [reflexivity |].
      intros _ [[q H] | H]; discriminate H.
    + split; [reflexivity |]. split; [discriminate |].
      split; [reflexivity |].
      split; [intros _ Hm; apply Hsub in Hm; discriminate Hm |].
      intros _ [[q H] | H]; discriminate H.
  - rewrite (outfit_recommendation_list cfg world l).
    cbn [truthy mentions_location].
    pose proof (existsb_location l) as Hin.
    destruct l as [| x l']; cbn [fst snd].
    { split; [reflexivity |]. split; [reflexivity |].
      split; [discriminate |]. split; discriminate. }
    destruct (existsb (fun x0 => py_eq_str x0 "location") (x :: l'));
      cbn [fst snd].
    + split; [reflexivity |]. split; [discriminate |].
      split; [intros _ _ Hno; exfalso; apply Hno, Hin; reflexivity |].
      split; [reflexivity |].
      intros _ [[q H] | H]; discriminate H.
    + split; [reflexivity |]. split; [discriminate |].
      split; [reflexivity |].
      split; [intros _ Hm; apply Hin in Hm; discriminate Hm |].
      intros _ [[q H] | H]; discriminate H.
  - exfalso. apply (Hobj d). reflexivity.
Qed.

Lemma non_object_body_is_rejected_witness :
  snd (outfit_recommendation (mkConfig (Some "w") (Some "u"))
         (constant_world (sample_weather 70 "Clear"))
         (Ok (JArr [JStr "location"; JStr "Oslo"]))) = []
  /\ fst (outfit_recommendation (mkConfig (Some "w") (Some "u"))
             (constant_world (sample_weather 70 "Clear"))
             (Ok (JArr [JStr "location"; JStr "Oslo"])))
     = (Internal_error_body TypeError, 500%Z).
Proof.
  destruct (non_object_body_is_rejected (mkConfig (Some "w") (Some "u"))
              (constant_world (sample_weather 70 "Clear"))
              (JArr [JStr "location"; JStr "Oslo"])
              ltac:(intros d; discriminate))
    as (Hlog & _ & _ & Hmentions & _).
  split; [exact Hlog |].
  apply Hmentions; [reflexivity | left; reflexivity].
Defined.
